(** * Bring-anything-to-life: generation client, creation store and orchestrator

    A shallow embedding of [src/services/gemini.ts], of the handlers and
    effects of [src/App.tsx], of the handlers of
    [src/components/InputArea.tsx] and of [handleExport], the loading steps
    and the choice of the main content in [src/components/LivePreview.tsx].

    Conventions of the embedding.
    - A JavaScript string is a [string]: a sequence of code units, of which
      the ones below 256 are represented.  Text constants of the source are
      copied as they are.
    - A JavaScript value is a [value]; an object is a finite map from
      property names to values, so [parsed.html] is a lookup that answers
      [VUndefined] for a missing property.
    - Built-ins of the platform whose result the handlers only pass on
      ([JSON.parse], [JSON.stringify], [Date.parse], the remote model, the
      quota of [localStorage], [fetch]) are the fields of a [Platform]; the
      theorems hold for every platform.  Module [Reference] gives one
      executable platform, used to run the handlers on concrete inputs.
    - [console.error] and [console.warn] are not observable by the user and
      are left out. *)

From stdpp Require Import gmap strings list fin_maps pretty.
From Stdlib Require Import ZArith Ascii Lia.

#[local] Set Warnings "-register-all".
#[local] Open Scope Z_scope.

(** ** JavaScript string primitives used by the sources *)

Module Str.

Definition nl : string := String "010"%char EmptyString.

(** White space and line terminators: what [\s] matches and what
    [String.prototype.trim] removes, among the code units below 256. *)
Definition js_space (c : ascii) : bool :=
  match c with
  | "009" | "010" | "011" | "012" | "013" | " " | "160" => true
  | _ => false
  end%char.

Fixpoint drop_spaces (s : string) : string :=
  match s with
  | String c s' => if js_space c then drop_spaces s' else s
  | EmptyString => EmptyString
  end.

(** [s.trim()] *)
Definition trim (s : string) : string :=
  String.rev (drop_spaces (String.rev (drop_spaces s))).

Definition is_empty (s : string) : bool :=
  match s with EmptyString => true | _ => false end.

(** [strip_prefix p s] is the rest of [s] after the prefix [p], if [s]
    starts with [p]. *)
Fixpoint strip_prefix (p s : string) : option string :=
  match p, s with
  | EmptyString, _ => Some s
  | String a p', String b s' =>
      if Ascii.eqb a b then strip_prefix p' s' else None
  | String _ _, EmptyString => None
  end.

Definition starts_with (p s : string) : bool :=
  match strip_prefix p s with Some _ => true | None => false end.

(** [s.includes(sub)] *)
Fixpoint includes (sub s : string) : bool :=
  starts_with sub s ||
  match s with
  | String _ s' => includes sub s'
  | EmptyString => false
  end.

(** [s.replace(/^p\s*/, '')] for a literal [p] *)
Definition remove_prefix_and_spaces (p s : string) : string :=
  match strip_prefix p s with
  | Some rest => drop_spaces rest
  | None => s
  end.

(** [s.replace(/p$/, '')] for a literal [p] *)
Definition remove_suffix (p s : string) : string :=
  match strip_prefix (String.rev p) (String.rev s) with
  | Some rest => String.rev rest
  | None => s
  end.

(** [s.split(c)] for a separator of one code unit: never an empty list. *)
Fixpoint split (c : ascii) (s : string) : list string :=
  match s with
  | EmptyString => [EmptyString]
  | String a s' =>
      if Ascii.eqb a c then EmptyString :: split c s'
      else match split c s' with
           | w :: ws => String a w :: ws
           | [] => [String a EmptyString]
           end
  end.

(** [l.join(sep)] *)
Fixpoint join (sep : string) (l : list string) : string :=
  match l with
  | [] => EmptyString
  | [w] => w
  | w :: ws => w +:+ sep +:+ join sep ws
  end.

(** [s.substring(0, n)] *)
Fixpoint take (n : nat) (s : string) : string :=
  match n, s with
  | S n', String a s' => String a (take n' s')
  | _, _ => EmptyString
  end.

Definition lower_char (c : ascii) : ascii :=
  let n := nat_of_ascii c in
  if ((65 <=? n)%nat && (n <=? 90)%nat)
     || ((192 <=? n)%nat && (n <=? 222)%nat && negb (n =? 215)%nat)
  then ascii_of_nat (n + 32) else c.

(** [s.toLowerCase()] *)
Fixpoint toLowerCase (s : string) : string :=
  match s with
  | EmptyString => EmptyString
  | String c s' => String (lower_char c) (toLowerCase s')
  end.

Definition is_alnum (c : ascii) : bool :=
  let n := nat_of_ascii c in
  ((48 <=? n)%nat && (n <=? 57)%nat)
  || ((65 <=? n)%nat && (n <=? 90)%nat)
  || ((97 <=? n)%nat && (n <=? 122)%nat).

(** [s.replace(/[^a-z0-9]/gi, '_')] *)
Fixpoint sanitize (s : string) : string :=
  match s with
  | EmptyString => EmptyString
  | String c s' => String (if is_alnum c then c else "_"%char) (sanitize s')
  end.

End Str.

(** ** Results of code that may throw *)

Inductive exn : Type :=
  | SyntaxError      (* JSON.parse on malformed text *)
  | TypeError        (* property read on null, call of a non-function *)
  | TransportError   (* a rejected remote call or fetch *)
  | ReadError        (* FileReader.onerror *)
  | QuotaExceededError.

Inductive result (A : Type) : Type :=
  | Return (a : A)
  | Throw (e : exn).
Arguments Return {A} a.
Arguments Throw {A} e.

#[global] Instance result_ret : MRet result := fun A a => Return a.
#[global] Instance result_bind : MBind result := fun A B f r =>
  match r with
  | Return a => f a
  | Throw e => Throw e
  end.
#[global] Instance result_fmap : FMap result := fun A B f r =>
  match r with
  | Return a => Return (f a)
  | Throw e => Throw e
  end.

(** ** src/services/gemini.ts *)

Module Gemini.

Inductive Lang : Type := en | ar.

Definition FILE_DIRECTIVE : string :=
  "Analyze this image/document. Detect what functionality is implied. If it is a real-world object (like a desk), gamify it. If it implies a technical tool, build a simulation. Build a fully interactive web app. IMPORTANT: Do NOT use external image URLs. Recreate the visuals using CSS, SVGs, or Emojis.".

Definition DEMO_REQUEST : string :=
  "Create a demo app that shows off your capabilities.".

Definition PLACEHOLDER : string := "<!-- Failed to generate content -->".

(** Truthiness of a [string | undefined]. *)
Definition truthy_opt (s : option string) : bool :=
  match s with
  | Some s => negb (Str.is_empty s)
  | None => false
  end.

Definition user_request (prompt : string) : string :=
  Str.nl +:+ Str.nl +:+ "USER REQUEST: " +:+ prompt.

Definition context_clause (lang : Lang) : string :=
  Str.nl +:+ Str.nl +:+
  "CONTEXT: The user is currently browsing the interface in " +:+
  (match lang with ar => "Arabic (RTL)" | en => "English (LTR)" end) +:+
  ". Adapt the generated application accordingly.".

(** Lines 48-62 of [bringToLife]: the instruction text sent to the model. *)
Definition finalPrompt (prompt : string) (fileBase64 : option string)
    (lang : Lang) : string :=
  let p0 := prompt in
  let p1 :=
    if truthy_opt fileBase64
    then (if truthy_opt fileBase64 then FILE_DIRECTIVE else DEMO_REQUEST)
    else p0 in
  let p2 :=
    if negb (Str.is_empty prompt)
       && (0 <? String.length (Str.trim prompt))%nat
    then p1 +:+ user_request prompt
    else p1 in
  p2 +:+ context_clause lang.

Inductive Part : Type :=
  | TextPart (text : string)
  | InlineData (data mimeType : string).

(** Lines 45 and 64-73: the ordered content parts of the request. *)
Definition requestParts (prompt : string) (fileBase64 mimeType : option string)
    (lang : Lang) : list Part :=
  TextPart (finalPrompt prompt fileBase64 lang) ::
  match fileBase64, mimeType with
  | Some d, Some m =>
      if truthy_opt fileBase64 && truthy_opt mimeType
      then [InlineData d m] else []
  | _, _ => []
  end.

(** What the remote model call does: it rejects, or it answers with a
    [text] that may be undefined. *)
Inductive RemoteResult : Type :=
  | Rejected
  | Responded (text : option string).

(** Line 90: the three replacements that remove markdown fences. *)
Definition stripFences (text : string) : string :=
  Str.remove_suffix "```"
    (Str.remove_prefix_and_spaces "```"
       (Str.remove_prefix_and_spaces "```html" text)).

Section Client.
(** [ai.models.generateContent], with the fixed model identifier, system
    instruction and temperature. *)
Variable generateContent : list Part -> RemoteResult.

Definition bringToLife (prompt : string) (fileBase64 mimeType : option string)
    (lang : Lang) : result string :=
  match generateContent (requestParts prompt fileBase64 mimeType lang) with
  | Rejected => Throw TransportError
  | Responded text =>
      let text := match text with
                  | Some t => if Str.is_empty t then PLACEHOLDER else t
                  | None => PLACEHOLDER
                  end in
      Return (stripFences text)
  end.
End Client.

End Gemini.

(** ** JavaScript values *)

Inductive value : Type :=
  | VUndefined
  | VNull
  | VBool (b : bool)
  | VNum (n : Z)                     (* integer-valued numbers *)
  | VStr (s : string)
  | VDate (t : option Z)             (* time value in ms; None: Invalid Date *)
  | VArr (l : list value)
  | VObj (m : gmap string value).

Module JS.

(** ToBoolean *)
Definition truthy (v : value) : bool :=
  match v with
  | VUndefined | VNull => false
  | VBool b => b
  | VNum n => negb (n =? 0)
  | VStr s => negb (Str.is_empty s)
  | VDate _ | VArr _ | VObj _ => true
  end.

(** [a || b] *)
Definition or_else (a b : value) : value := if truthy a then a else b.

(** [v.k] for the property names the handlers read ([html], [name], [id],
    [timestamp]): a TypeError on null and undefined, the property of an
    object, and undefined on any other value, none of which has a
    property of one of these names. *)
Definition get (v : value) (k : string) : result value :=
  match v with
  | VUndefined | VNull => Throw TypeError
  | VObj m => Return (default VUndefined (m !! k))
  | _ => Return VUndefined
  end.

(** Property read on a value known to be an object. *)
Definition field (m : gmap string value) (k : string) : value :=
  default VUndefined (m !! k).

Definition indexed {A} (f : A -> value) (l : list A) : gmap string value :=
  list_to_map (imap (fun i x => (pretty i, f x)) l).

Fixpoint chars (s : string) : list string :=
  match s with
  | EmptyString => []
  | String c s' => String c EmptyString :: chars s'
  end.

(** The own enumerable properties copied by [{...v}]. *)
Definition spread (v : value) : gmap string value :=
  match v with
  | VObj m => m
  | VArr l => indexed id l
  | VStr s => indexed VStr (chars s)
  | _ => ∅
  end.

(** [a === b] where [a] and [b] were allocated apart: objects, arrays and
    dates are compared by reference and are therefore different. *)
Definition strict_eq (a b : value) : bool :=
  match a, b with
  | VUndefined, VUndefined => true
  | VNull, VNull => true
  | VBool x, VBool y => Bool.eqb x y
  | VNum x, VNum y => x =? y
  | VStr x, VStr y => String.eqb x y
  | _, _ => false
  end.

(** [ToPrimitive] throws a TypeError on [v].  No value made of JSON text is
    callable, so an own property [toString] of an object hides
    [Object.prototype.toString] and leaves the object without a method that
    gives a primitive ([Object.prototype.valueOf] answers the object, and an
    own [valueOf] is skipped as well).  An object without that property
    converts to the text [[object Object]].  An array converts by [join],
    which converts each of its elements other than null and undefined.  A
    date and each primitive value convert. *)
Fixpoint to_primitive_throws (v : value) : bool :=
  match v with
  | VObj m => match m !! "toString" with Some _ => true | None => false end
  | VArr l => existsb to_primitive_throws l
  | _ => false
  end.

(** TimeClip *)
Definition time_clip (n : Z) : option Z :=
  if Z.abs n <=? 8640000000000000 then Some n else None.

End JS.

(** ** Platform built-ins *)

Inductive FetchResult : Type :=
  | FetchRejected                               (* fetch(url) rejects *)
  | FetchResponse (ok : bool) (body : result value).
                                                (* res.ok and res.json() *)

Record Platform : Type := {
  (** [JSON.parse(text)] *)
  JSON_parse : string -> result value;
  (** [JSON.stringify(v, null, indent)], on a value that is not undefined *)
  JSON_stringify : value -> nat -> string;
  (** [Date.parse(text)] *)
  Date_parse : string -> option Z;
  (** [new Date(t).toISOString()] for a valid time value *)
  toISOString : Z -> string;
  (** the time value of [new Date(v)] for an array or an object [v] that
      converts to a primitive: [Date.parse] of the text it converts to *)
  Date_of_object : value -> option Z;
  (** whether [localStorage.setItem(k, v)] throws, given the stored items *)
  quota_exceeded : gmap string string -> string -> string -> bool;
  (** the remote model *)
  generateContent : list Gemini.Part -> Gemini.RemoteResult;
  (** [fetch(url)] followed by [res.json()] *)
  fetch : string -> FetchResult;
}.

Module Json.
Section Serialise.
Variable P : Platform.

(** What [JSON.stringify] writes for a value, as the value that
    [JSON.parse] reads back: a date becomes its ISO text (null when
    invalid), an undefined property is left out, an undefined element
    becomes null. *)
Fixpoint to_json (v : value) : option value :=
  match v with
  | VUndefined => None
  | VDate (Some t) => Some (VStr (toISOString P t))
  | VDate None => Some VNull
  | VArr l => Some (VArr (map (fun x => default VNull (to_json x)) l))
  | VObj m => Some (VObj (omap to_json m))
  | _ => Some v
  end.

(** The time value of [new Date(v)] for a [v] that converts to a
    primitive. *)
Definition time_value (v : value) : option Z :=
  match v with
  | VUndefined => None
  | VNull => Some 0
  | VBool b => Some (if b then 1 else 0)
  | VNum n => JS.time_clip n
  | VStr s => Date_parse P s
  | VDate t => t
  | VArr _ | VObj _ => Date_of_object P v
  end.

(** [new Date(v)]: a TypeError when [v] does not convert to a primitive. *)
Definition Date_new (v : value) : result (option Z) :=
  if JS.to_primitive_throws v then Throw TypeError
  else Return (time_value v).
End Serialise.
End Json.

(** ** The component state of [App] and its surroundings *)

(** A creation is a JavaScript object: the [Creation] literal of
    [handleGenerate], or whatever object a parsed document spreads into.
    The [Creation] interface is declared in [components/CreationHistory],
    which is not among the sources; its properties are read off that literal
    ([id], [name], [html], [originalImage], [timestamp]), and nothing checks
    at run time that a parsed document has them. *)
Abbreviation Creation := (gmap string value).

Record File : Type := {
  file_name : string;
  file_type : string;
  (** what [FileReader.readAsDataURL] delivers: [onerror], or [onload] with a
      [reader.result] that is a string or is not *)
  file_dataURL : result (option string);
}.

Record World : Type := {
  activeCreation : option Creation;
  isGenerating : bool;
  history : list Creation;
  lang : Gemini.Lang;
  (** a new array was given to [setHistory] since the last render, so the
      effect that depends on [history] is due *)
  historyChanged : bool;
  localStorage : gmap string string;
  (** the notices shown by [alert], oldest first *)
  alerts : list string;
  (** the URLs given to [fetch], oldest first *)
  fetched : list string;
}.

(** What a state updater returns: its argument itself, or a new value. *)
Inductive Update (A : Type) : Type :=
  | Same
  | Fresh (a : A).
Arguments Same {A}.
Arguments Fresh {A} a.

(** Handler code: it reads and writes the world and may throw. *)
Definition M (A : Type) : Type := World -> result A * World.

#[global] Instance M_ret : MRet M := fun A a w => (Return a, w).
#[global] Instance M_bind : MBind M := fun A B f m w =>
  match m w with
  | (Return a, w') => f a w'
  | (Throw e, w') => (Throw e, w')
  end.

Module Eff.

Definition lift {A} (r : result A) : M A := fun w => (r, w).

(** [try { body } catch (e) { handler }] *)
Definition try_catch {A} (body : M A) (handler : exn -> M A) : M A :=
  fun w =>
    match body w with
    | (Return a, w') => (Return a, w')
    | (Throw e, w') => handler e w'
    end.

(** [try { body } finally { final }], for a [final] that does not throw *)
Definition finally {A} (body : M A) (final : M unit) : M A :=
  fun w =>
    match body w with
    | (r, w') => (r, snd (final w'))
    end.

Definition getLang : M Gemini.Lang := fun w => (Return (lang w), w).

Definition setIsGenerating (b : bool) : M unit := fun w =>
  (Return (), {| activeCreation := activeCreation w; isGenerating := b;
                 history := history w; lang := lang w;
                 historyChanged := historyChanged w;
                 localStorage := localStorage w; alerts := alerts w;
                 fetched := fetched w |}).

Definition setActiveCreation (c : option Creation) : M unit := fun w =>
  (Return (), {| activeCreation := c; isGenerating := isGenerating w;
                 history := history w; lang := lang w;
                 historyChanged := historyChanged w;
                 localStorage := localStorage w; alerts := alerts w;
                 fetched := fetched w |}).

(** [setHistory(prev => ...)]: React keeps the state, and schedules no
    effect, when the updater returns its argument. *)
Definition setHistory (f : list Creation -> Update (list Creation)) : M unit :=
  fun w =>
    match f (history w) with
    | Same => (Return (), w)
    | Fresh h =>
        (Return (), {| activeCreation := activeCreation w;
                       isGenerating := isGenerating w;
                       history := h; lang := lang w;
                       historyChanged := true;
                       localStorage := localStorage w; alerts := alerts w;
                       fetched := fetched w |})
    end.

Definition alert (msg : string) : M unit := fun w =>
  (Return (), {| activeCreation := activeCreation w;
                 isGenerating := isGenerating w;
                 history := history w; lang := lang w;
                 historyChanged := historyChanged w;
                 localStorage := localStorage w;
                 alerts := alerts w ++ [msg]; fetched := fetched w |}).

Definition clearHistoryChanged : M unit := fun w =>
  (Return (), {| activeCreation := activeCreation w;
                 isGenerating := isGenerating w;
                 history := history w; lang := lang w;
                 historyChanged := false;
                 localStorage := localStorage w;
                 alerts := alerts w; fetched := fetched w |}).

Definition getItem (k : string) : M (option string) := fun w =>
  (Return (localStorage w !! k), w).

Section Storage.
Variable P : Platform.

(** [fetch(url)]: the request is issued and its outcome is awaited. *)
Definition doFetch (url : string) : M FetchResult := fun w =>
  (Return (fetch P url),
   {| activeCreation := activeCreation w; isGenerating := isGenerating w;
      history := history w; lang := lang w;
      historyChanged := historyChanged w;
      localStorage := localStorage w; alerts := alerts w;
      fetched := fetched w ++ [url] |}).

(** [localStorage.setItem(k, v)] *)
Definition setItem (k v : string) : M unit := fun w =>
  if quota_exceeded P (localStorage w) k v then (Throw QuotaExceededError, w)
  else
    (Return (), {| activeCreation := activeCreation w;
                   isGenerating := isGenerating w;
                   history := history w; lang := lang w;
                   historyChanged := historyChanged w;
                   localStorage := <[k := v]> (localStorage w);
                   alerts := alerts w; fetched := fetched w |}).
End Storage.

(** The state after running handler code. *)
Definition exec {A} (m : M A) (w : World) : World := snd (m w).

End Eff.

(** ** src/App.tsx *)

Module App.
Import Eff.

Definition HISTORY_KEY : string := "gemini_app_history".

Definition exampleUrls : list string :=
  [ "https://storage.googleapis.com/sideprojects-asronline/bringanythingtolife/vibecode-blog.json";
    "https://storage.googleapis.com/sideprojects-asronline/bringanythingtolife/cassette.json";
    "https://storage.googleapis.com/sideprojects-asronline/bringanythingtolife/chess.json" ].

Definition GENERATION_FAILED (l : Gemini.Lang) : string :=
  match l with
  | Gemini.ar => "حدث خطأ ما أثناء توليد التطبيق. يرجى المحاولة مرة أخرى."
  | Gemini.en => "Something went wrong while bringing your idea to life. Please try again."
  end.

Definition INVALID_FORMAT (l : Gemini.Lang) : string :=
  match l with
  | Gemini.ar => "صيغة الملف غير صحيحة."
  | Gemini.en => "Invalid creation file format."
  end.

Definition IMPORT_FAILED (l : Gemini.Lang) : string :=
  match l with
  | Gemini.ar => "فشل استيراد الملف."
  | Gemini.en => "Failed to import creation."
  end.

Definition DEFAULT_NAME (l : Gemini.Lang) : string :=
  match l with
  | Gemini.ar => "مشروع جديد"
  | Gemini.en => "New Creation"
  end.

(** [l.map(f)] for a callback that may throw: the first exception ends
    the traversal.  Also the join of [Promise.all]. *)
Fixpoint mapR {A B} (f : A -> result B) (l : list A) : result (list B) :=
  match l with
  | [] => Return []
  | x :: l' =>
      match f x with
      | Throw e => Throw e
      | Return y =>
          match mapR f l' with
          | Throw e => Throw e
          | Return ys => Return (y :: ys)
          end
      end
  end.

Section Handlers.
Variable P : Platform.

(** *** Loading and seeding (lines 88-136) *)

(** [item => ({...item, timestamp: new Date(item.timestamp)})] *)
Definition reviveItem (item : value) : result Creation :=
  ts ← JS.get item "timestamp";
  t ← Json.Date_new P ts;
  mret (<["timestamp" := VDate t]> (JS.spread item)).

(** [parsed.map(...)]: only an array has a [map] method. *)
Definition reviveAll (parsed : value) : result (list Creation) :=
  match parsed with
  | VArr items => mapR reviveItem items
  | _ => Throw TypeError
  end.

(** Lines 90-103: the history read from the saved text, empty when there
    is none or when reading it throws. *)
Definition loadedHistory (saved : option string) : list Creation :=
  match saved with
  | Some text =>
      if Str.is_empty text then []
      else match JSON_parse P text ≫= reviveAll with
           | Return l => l
           | Throw _ => []
           end
  | None => []
  end.

(** The object literal of lines 120-124 and of lines 240-244:
    [{...data, timestamp: new Date(data.timestamp || Date.now()),
      id: data.id || crypto.randomUUID()}]. *)
Definition withTimestampAndId (data : value) (now : Z) (uuid : string)
    : result Creation :=
  ts ← JS.get data "timestamp";
  t ← Json.Date_new P (JS.or_else ts (VNum now));
  i ← JS.get data "id";
  mret (<["id" := JS.or_else i (VStr uuid)]>
          (<["timestamp" := VDate t]> (JS.spread data))).

(** Lines 117-124, after the fetch: null for a response that is not ok,
    else the creation made from the parsed body. *)
Definition exampleOf (now : Z) (uuid : string) (r : FetchResult)
    : result (option Creation) :=
  match r with
  | FetchRejected => Throw TransportError
  | FetchResponse false _ => Return None
  | FetchResponse true body =>
      data ← body;
      Some <$> withTimestampAndId data now uuid
  end.

(** The requests of all the examples are issued before any is awaited. *)
Fixpoint fetchAll (urls : list string) : M (list (string * FetchResult)) :=
  match urls with
  | [] => mret []
  | url :: urls' =>
      r ← doFetch P url;
      rs ← fetchAll urls';
      mret ((url, r) :: rs)
  end.

(** Lines 109-131.  [now] is [Date.now()] and [uuid url] is what
    [crypto.randomUUID()] answers in the callback of [url]. *)
Definition seedExamples (now : Z) (uuid : string -> string) : M unit :=
  try_catch
    (rs ← fetchAll exampleUrls;
     examples ← lift (mapR (fun ur => exampleOf now (uuid ur.1) ur.2) rs);
     let validExamples := omap id examples in
     setHistory (fun _ => Fresh validExamples))
    (fun _ => mret ()).

Definition initHistory (now : Z) (uuid : string -> string) : M unit :=
  saved ← getItem HISTORY_KEY;
  let loaded := loadedHistory saved in
  if (0 <? length loaded)%nat
  then setHistory (fun _ => Fresh loaded)
  else seedExamples now uuid.

(** *** Saving (lines 139-147) *)

Definition historyValue (h : list Creation) : value := VArr (VObj <$> h).

Definition persistEffect : M unit := fun w =>
  if (0 <? length (history w))%nat
  then try_catch
         (setItem P HISTORY_KEY (JSON_stringify P (historyValue (history w)) 0))
         (fun _ => mret ()) w
  else (Return (), w).

(** A render after an event: the effect runs when [history] changed. *)
Definition render : M unit := fun w =>
  if historyChanged w
  then (persistEffect;; clearHistoryChanged) w
  else (Return (), w).

(** *** Generation (lines 150-213) *)

Definition fileToBase64 (file : File) : result (option string) :=
  match file_dataURL file with
  | Throw e => Throw e
  | Return (Some dataURL) => Return (Str.split "," dataURL !! 1%nat)
  | Return None => Throw ReadError
  end.

(** Lines 185-193 *)
Definition creationName (l : Gemini.Lang) (promptText : string)
    (file : option File) : string :=
  match file with
  | Some f => file_name f
  | None =>
      if Str.is_empty promptText then DEFAULT_NAME l
      else
        let words := Str.split " " promptText in
        let name :=
          Str.join " " (take 4 words) +:+
          (if (4 <? length words)%nat then "..." else EmptyString) in
        if (30 <? String.length name)%nat
        then Str.take 27 name +:+ "..."
        else name
  end.

(** Lines 195-202 *)
Definition newCreation (uuid name html : string)
    (imageBase64 mimeType : option string) (now : Z) : Creation :=
  <["id" := VStr uuid]>
  (<["name" := VStr name]>
  (<["html" := VStr html]>
  (<["originalImage" :=
       match imageBase64, mimeType with
       | Some b, Some m =>
           if Gemini.truthy_opt imageBase64 && Gemini.truthy_opt mimeType
           then VStr ("data:" +:+ m +:+ ";base64," +:+ b)
           else VUndefined
       | _, _ => VUndefined
       end]>
  (<["timestamp" := VDate (Some now)]> ∅)))).

(** Lines 173-179: the payload and the media type of the file. *)
Definition encodeFile (file : option File)
    : result (option string * option string) :=
  match file with
  | Some f =>
      imageBase64 ← fileToBase64 f;
      mret (imageBase64, Some (Str.toLowerCase (file_type f)))
  | None => mret (None, None)
  end.

(** Line 204: [prev => [newCreation, ...prev]] *)
Definition prepend (c : Creation) (prev : list Creation)
    : Update (list Creation) :=
  Fresh (c :: prev).

(** One generation attempt, from the submit to the end of [finally].
    [now] is the time at which the creation is made and [uuid] what
    [crypto.randomUUID()] answers. *)
Definition handleGenerate (promptText : string) (file : option File)
    (now : Z) (uuid : string) : M unit :=
  l ← getLang;
  setIsGenerating true;;
  setActiveCreation None;;
  finally
    (try_catch
       (enc ← lift (encodeFile file);
        let imageBase64 := enc.1 in
        let mimeType := enc.2 in
        html ← lift (Gemini.bringToLife (generateContent P)
                       promptText imageBase64 mimeType l);
        if negb (Str.is_empty html)
        then
          let c := newCreation uuid (creationName l promptText file) html
                     imageBase64 mimeType now in
          setActiveCreation (Some c);;
          setHistory (prepend c)
        else mret ())
       (fun _ => alert (GENERATION_FAILED l)))
    (setIsGenerating false).

Definition handleReset : M unit :=
  setActiveCreation None;; setIsGenerating false.

Definition handleSelectCreation (creation : Creation) : M unit :=
  setActiveCreation (Some creation).

(** *** Import (lines 228-265) *)

(** [prev.some(c => c.id === importedCreation.id)] *)
Definition idExists (prev : list Creation) (c : Creation) : bool :=
  existsb (fun c' => JS.strict_eq (JS.field c' "id") (JS.field c "id")) prev.

(** Lines 247-250: [prev => exists ? prev : [importedCreation, ...prev]] *)
Definition prependIfNew (c : Creation) (prev : list Creation)
    : Update (list Creation) :=
  if idExists prev c then Same else Fresh (c :: prev).

(** The [onload] callback of the reader, on the text of the file.  In
    [parsed.html && parsed.name] the second operand is read only when the
    first is truthy.  Emptying the file input at the end is left out. *)
Definition importOnload (json : string) (now : Z) (uuid : string) : M unit :=
  l ← getLang;
  try_catch
    (parsed ← lift (JSON_parse P json);
     html ← lift (JS.get parsed "html");
     name ← lift (if JS.truthy html then JS.get parsed "name"
                  else Return html);
     if JS.truthy html && JS.truthy name
     then
       c ← lift (withTimestampAndId parsed now uuid);
       setHistory (prependIfNew c);;
       setActiveCreation (Some c)
     else alert (INVALID_FORMAT l))
    (fun _ => alert (IMPORT_FAILED l)).

(** [picked] is the text of the chosen file: none when no file was
    chosen, and a read that fails never calls [onload]. *)
Definition handleImportFile (picked : option (result string)) (now : Z)
    (uuid : string) : M unit :=
  match picked with
  | Some (Return json) => importOnload json now uuid
  | Some (Throw _) | None => mret ()
  end.

(** An event and the render that follows it. *)
Definition dispatch (handler : M unit) (w : World) : World :=
  exec (handler;; render) w.

End Handlers.

(** The state of the first render, before any effect.  The effects that
    read the saved theme and locale are left out: the theorems hold for
    every locale. *)
Definition initial (storage : gmap string string) : World :=
  {| activeCreation := None; isGenerating := false; history := [];
     lang := Gemini.en; historyChanged := false; localStorage := storage;
     alerts := []; fetched := [] |}.

(** The effects of the first render.  The saving effect of that render sees
    its history, which is empty, whatever [initHistory] has set by then: it
    is run first here, then loading or seeding and the render that follows. *)
Definition mount (P : Platform) (now : Z) (uuid : string -> string)
    (storage : gmap string string) : World :=
  dispatch P (initHistory P now uuid) (exec (persistEffect P) (initial storage)).

(** Line 267: [!!activeCreation || isGenerating], the [disabled] of the
    input area. *)
Definition isFocused (w : World) : bool :=
  match activeCreation w with Some _ => true | None => false end
  || isGenerating w.

End App.

(** ** src/components/LivePreview.tsx *)

Module LivePreview.

Record Download : Type := { filename : string; content : string }.

(** [handleExport] (lines 151-163): nothing without a creation; the text
    is made first, and the file name needs a [name] that is a string. *)
Definition handleExport (P : Platform) (creation : option Creation)
    : result (option Download) :=
  match creation with
  | None => Return None
  | Some c =>
      let dataStr := JSON_stringify P (VObj c) 2 in
      match JS.field c "name" with
      | VStr name =>
          Return (Some {| filename :=
                            Str.toLowerCase (Str.sanitize name) +:+
                            "_artifact.json";
                          content := dataStr |})
      | _ => Throw TypeError
      end
  end.

(** Lines 116-127 *)
Definition LOADING_STEPS : list string :=
  [ "Initializing virtual environment";
    "Analyzing visual inputs";
    "Identifying UI patterns";
    "Generating functional logic";
    "Constructing DOM structure";
    "Injecting styles & animations";
    "Fetching data components";
    "Binding interactive events";
    "Optimizing output performance";
    "Finalizing render" ].

(** Line 134, the updater of the interval:
    [prev => (prev < LOADING_STEPS.length - 1 ? prev + 1 : prev)] *)
Definition nextLoadingStep (prev : nat) : nat :=
  if (prev <? length LOADING_STEPS - 1)%nat then (prev + 1)%nat else prev.

(** Lines 143-149: the split view that a creation starts with. *)
Definition defaultSplitView (creation : option Creation) : bool :=
  match creation with
  | Some c => JS.truthy (JS.field c "originalImage")
  | None => false
  end.

(** What the main area shows (lines 239-306). *)
Inductive SourcePanel : Type :=
  | PdfPanel (dataUrl : value)
  | ImagePanel (src : value).

Inductive MainContent : Type :=
  | LoadingSteps
  | Document (srcDoc : value) (source : option SourcePanel)
  | Nothing.

(** [originalImage.startsWith('data:application/pdf')]: only a string has
    the method. *)
Definition sourcePanel (originalImage : value) : result SourcePanel :=
  match originalImage with
  | VStr s =>
      Return (if Str.starts_with "data:application/pdf" s
              then PdfPanel originalImage else ImagePanel originalImage)
  | _ => Throw TypeError
  end.

Definition mainContent (isLoading : bool) (creation : option Creation)
    (showSplitView : bool) : result MainContent :=
  if isLoading then Return LoadingSteps
  else match creation with
       | Some c =>
           if JS.truthy (JS.field c "html")
           then
             if showSplitView && JS.truthy (JS.field c "originalImage")
             then panel ← sourcePanel (JS.field c "originalImage");
                  mret (Document (JS.field c "html") (Some panel))
             else mret (Document (JS.field c "html") None)
           else Return Nothing
       | None => Return Nothing
       end.

End LivePreview.

(** ** src/components/InputArea.tsx *)

Module InputArea.
Import Eff.

(** Lines 16-35 *)
Definition wordsEn : list string :=
  [ "a napkin sketch"; "a chaotic whiteboard"; "a network scanner";
    "a game level design"; "a sci-fi interface"; "a diagram of a machine";
    "an ancient scroll" ].

Definition wordsAr : list string :=
  [ "رسمة على منديل"; "سبورة فوضوية"; "ماسح شبكات"; "تصميم مرحلة لعبة";
    "واجهة خيال علمي"; "مخطط آلة"; "مخطوطة قديمة" ].

Definition words (l : Gemini.Lang) : list string :=
  match l with Gemini.ar => wordsAr | Gemini.en => wordsEn end.

(** Line 44, the updater of the timer: [prev => (prev + 1) % words.length] *)
Definition nextIndex (l : Gemini.Lang) (prev : nat) : nat :=
  ((prev + 1) mod length (words l))%nat.

(** The state of the component. *)
Record State : Type := { prompt : string; isDragging : bool }.

Definition UPLOAD_NOTICE (l : Gemini.Lang) : string :=
  match l with
  | Gemini.ar => "يرجى تحميل صورة أو ملف PDF."
  | Gemini.en => "Please upload an image or PDF."
  end.

Section Props.
(** The [onGenerate] of the props.  [isGenerating], [disabled] and [lang] are
    read from the world: [App] passes [isGenerating], [isFocused] and
    [lang]. *)
Variable onGenerate : string -> option File -> M unit.

(** Lines 63-69 *)
Definition handleFile (file : File) : M unit :=
  l ← getLang;
  if Str.starts_with "image/" (file_type file)
     || String.eqb (file_type file) "application/pdf"
  then onGenerate EmptyString (Some file)
  else alert (UPLOAD_NOTICE l).

(** Lines 71-75, on the files of the input. *)
Definition handleFileChange (files : list File) : M unit :=
  match files with
  | file :: _ => handleFile file
  | [] => mret ()
  end.

(** Lines 77-84, on the files of the drop.  [handleFileCaptured] is the
    [handleFile] that the memoised callback holds. *)
Definition handleDrop (handleFileCaptured : File -> M unit)
    (files : list File) (s : State) : M State := fun w =>
  let s' := {| prompt := prompt s; isDragging := false |} in
  if App.isFocused w || isGenerating w then (Return s', w)
  else match files with
       | file :: _ => (handleFileCaptured file;; mret s') w
       | [] => (Return s', w)
       end.

(** Lines 86-91 *)
Definition handleDragOver (s : State) : M State := fun w =>
  if negb (App.isFocused w) && negb (isGenerating w)
  then (Return {| prompt := prompt s; isDragging := true |}, w)
  else (Return s, w).

(** Lines 93-96 *)
Definition handleDragLeave (s : State) : State :=
  {| prompt := prompt s; isDragging := false |}.

(** Lines 98-103 *)
Definition handleTextSubmit (s : State) : M State := fun w =>
  if Str.is_empty (Str.trim (prompt s)) || isGenerating w || App.isFocused w
  then (Return s, w)
  else (onGenerate (Str.trim (prompt s)) None;;
        mret {| prompt := EmptyString; isDragging := isDragging s |}) w.

End Props.
End InputArea.

(** ** The theme of [App] (lines 17, 22-29, 37-46, 65-67) *)

Module Theme.

Definition THEME_KEY : string := "gemini_app_theme".

(** Lines 23-28: the mode after the first effect, from the saved theme, the
    preference of the system and the initial mode, which is dark. *)
Definition initTheme (storage : gmap string string) (prefersLight : bool)
    : bool :=
  match storage !! THEME_KEY with
  | Some savedTheme =>
      if Str.is_empty savedTheme
      then (if prefersLight then false else true)
      else String.eqb savedTheme "dark"
  | None => if prefersLight then false else true
  end.

(** Lines 39-45, the write of the effect that applies the theme. *)
Definition applyTheme (isDarkMode : bool) (storage : gmap string string)
    : gmap string string :=
  <[THEME_KEY := if isDarkMode then "dark" else "light"]> storage.

(** Lines 65-67 *)
Definition toggleTheme (isDarkMode : bool) : bool := negb isDarkMode.

End Theme.

(** ** A reference platform

    An executable reading of the built-ins, for running the handlers on
    concrete inputs: JSON text with integer numbers, ISO 8601 date text, a
    store without quota. *)

Module Reference.

Definition dq : ascii := "034"%char.
Definition bs : ascii := "\"%char.

(** Replaces each single quote by a double quote, to write JSON text. *)
Fixpoint quoted (s : string) : string :=
  match s with
  | EmptyString => EmptyString
  | String c s' => String (if Ascii.eqb c "'" then dq else c) (quoted s')
  end.

Definition digit_char (n : Z) : ascii := ascii_of_nat (48 + Z.to_nat n).

Definition digit_val (c : ascii) : option Z :=
  let n := nat_of_ascii c in
  if (48 <=? n)%nat && (n <=? 57)%nat then Some (Z.of_nat n - 48) else None.

(** [n] in decimal on exactly [width] digits. *)
Fixpoint digits (width : nat) (n : Z) : string :=
  match width with
  | O => EmptyString
  | S w => digits w (n / 10) +:+ String (digit_char (n mod 10)) EmptyString
  end.

(** Reads exactly [k] decimal digits. *)
Fixpoint read_digits (k : nat) (acc : Z) (s : string) : option (Z * string) :=
  match k with
  | O => Some (acc, s)
  | S k' =>
      match s with
      | String c s' =>
          match digit_val c with
          | Some d => read_digits k' (10 * acc + d) s'
          | None => None
          end
      | EmptyString => None
      end
  end.

(** Reads as many decimal digits as there are. *)
Fixpoint read_number (acc : Z) (s : string) : Z * string :=
  match s with
  | String c s' =>
      match digit_val c with
      | Some d => read_number (10 * acc + d) s'
      | None => (acc, s)
      end
  | EmptyString => (acc, s)
  end.

Definition expect (c : ascii) (s : string) : option string :=
  match s with
  | String a s' => if Ascii.eqb a c then Some s' else None
  | EmptyString => None
  end.

(** *** Dates *)

Definition civil_from_days (z : Z) : Z * Z * Z :=
  let z := z + 719468 in
  let era := z / 146097 in
  let doe := z - era * 146097 in
  let yoe := (doe - doe / 1460 + doe / 36524 - doe / 146096) / 365 in
  let doy := doe - (365 * yoe + yoe / 4 - yoe / 100) in
  let mp := (5 * doy + 2) / 153 in
  let d := doy - (153 * mp + 2) / 5 + 1 in
  let m := if mp <? 10 then mp + 3 else mp - 9 in
  (yoe + era * 400 + (if m <=? 2 then 1 else 0), m, d).

Definition days_from_civil (y m d : Z) : Z :=
  let y := if m <=? 2 then y - 1 else y in
  let era := y / 400 in
  let yoe := y - era * 400 in
  let doy := (153 * (if 2 <? m then m - 3 else m + 9) + 2) / 5 + d - 1 in
  let doe := yoe * 365 + yoe / 4 - yoe / 100 + doy in
  era * 146097 + doe - 719468.

Definition toISOString (t : Z) : string :=
  let '(y, m, d) := civil_from_days (t / 86400000) in
  let ms := t mod 86400000 in
  (if (0 <=? y) && (y <=? 9999) then digits 4 y
   else (if y <? 0 then "-" else "+") +:+ digits 6 (Z.abs y)) +:+
  "-" +:+ digits 2 m +:+ "-" +:+ digits 2 d +:+
  "T" +:+ digits 2 (ms / 3600000) +:+
  ":" +:+ digits 2 (ms / 60000 mod 60) +:+
  ":" +:+ digits 2 (ms / 1000 mod 60) +:+
  "." +:+ digits 3 (ms mod 1000) +:+ "Z".

Definition read_year (s : string) : option (Z * string) :=
  match s with
  | String "+" s' => read_digits 6 0 s'
  | String "-" s' =>
      match read_digits 6 0 s' with
      | Some (y, r) => Some (- y, r)
      | None => None
      end
  | _ => read_digits 4 0 s
  end.

(** The date-time form of ISO 8601 that [toISOString] writes. *)
Definition Date_parse (s : string) : option Z :=
  '(y, s) ← read_year s;
  s ← expect "-" s; '(m, s) ← read_digits 2 0 s;
  s ← expect "-" s; '(d, s) ← read_digits 2 0 s;
  s ← expect "T" s; '(h, s) ← read_digits 2 0 s;
  s ← expect ":" s; '(mi, s) ← read_digits 2 0 s;
  s ← expect ":" s; '(sec, s) ← read_digits 2 0 s;
  s ← expect "." s; '(ms, s) ← read_digits 3 0 s;
  s ← expect "Z" s;
  if Str.is_empty s
     && (1 <=? m) && (m <=? 12) && (1 <=? d) && (d <=? 31)
     && (h <? 24) && (mi <? 60) && (sec <? 60)
  then JS.time_clip
         (days_from_civil y m d * 86400000
          + h * 3600000 + mi * 60000 + sec * 1000 + ms)
  else None.

(** *** Writing JSON *)

Definition hex_char (n : Z) : ascii :=
  if n <? 10 then digit_char n else ascii_of_nat (87 + Z.to_nat n).

Definition escape_char (c : ascii) : string :=
  let n := Z.of_nat (nat_of_ascii c) in
  if Ascii.eqb c dq then String bs (String dq EmptyString)
  else if Ascii.eqb c bs then String bs (String bs EmptyString)
  else if n =? 10 then String bs "n"
  else if n =? 13 then String bs "r"
  else if n =? 9 then String bs "t"
  else if n =? 8 then String bs "b"
  else if n =? 12 then String bs "f"
  else if n <? 32
       then String bs ("u00" +:+ String (hex_char (n / 16))
                                    (String (hex_char (n mod 16)) EmptyString))
  else String c EmptyString.

Fixpoint escape (s : string) : string :=
  match s with
  | EmptyString => EmptyString
  | String c s' => escape_char c +:+ escape s'
  end.

Definition write_string (s : string) : string :=
  String dq (escape s) +:+ String dq EmptyString.

Fixpoint spaces (n : nat) : string :=
  match n with
  | O => EmptyString
  | S n' => String " " (spaces n')
  end.

(** The items of an array or object, each on its own line at [depth + 1]
    when [indent] is not zero. *)
Definition write_block (indent depth : nat) (opening closing : string)
    (items : list string) : string :=
  match items with
  | [] => opening +:+ closing
  | _ =>
      if (indent =? 0)%nat
      then opening +:+ Str.join "," items +:+ closing
      else
        let pad := Str.nl +:+ spaces (indent * S depth) in
        opening +:+ pad +:+ Str.join ("," +:+ pad) items +:+
        Str.nl +:+ spaces (indent * depth) +:+ closing
  end.

(** The text of a value at a nesting depth, none for undefined. *)
Fixpoint write (indent : nat) (v : value) : option (nat -> string) :=
  match v with
  | VUndefined => None
  | VNull => Some (fun _ => "null")
  | VBool b => Some (fun _ => if b then "true" else "false")
  | VNum n => Some (fun _ => pretty n)
  | VStr s => Some (fun _ => write_string s)
  | VDate (Some t) => Some (fun _ => write_string (toISOString t))
  | VDate None => Some (fun _ => "null")
  | VArr l =>
      let items :=
        map (fun x => default (fun _ => "null") (write indent x)) l in
      Some (fun depth =>
        write_block indent depth "[" "]" (map (fun f => f (S depth)) items))
  | VObj m =>
      let items := map_to_list (omap (write indent) m) in
      Some (fun depth =>
        write_block indent depth "{" "}"
          (map (fun kf => write_string kf.1 +:+
                          (if (indent =? 0)%nat then ":" else ": ") +:+
                          kf.2 (S depth)) items))
  end.

Definition JSON_stringify (v : value) (indent : nat) : string :=
  match write indent v with
  | Some f => f O
  | None => "undefined"
  end.

(** *** Reading JSON *)

Fixpoint skip_ws (s : string) : string :=
  match s with
  | String c s' =>
      if Ascii.eqb c " " || Ascii.eqb c "009" || Ascii.eqb c "010"
         || Ascii.eqb c "013"
      then skip_ws s' else s
  | EmptyString => EmptyString
  end.

Definition hex_val (c : ascii) : option Z :=
  let n := Z.of_nat (nat_of_ascii c) in
  if (48 <=? n) && (n <=? 57) then Some (n - 48)
  else if (97 <=? n) && (n <=? 102) then Some (n - 87)
  else if (65 <=? n) && (n <=? 70) then Some (n - 55)
  else None.

(** The code unit written [\uXXXX], when it is below 256. *)
Definition read_unicode (s : string) : option (ascii * string) :=
  match s with
  | String a (String b (String c (String d s'))) =>
      x ← hex_val a; y ← hex_val b; z ← hex_val c; w ← hex_val d;
      if (x =? 0) && (y =? 0)
      then Some (ascii_of_nat (Z.to_nat (16 * z + w)), s')
      else None
  | _ => None
  end.

(** The characters of a string literal after its opening quote, and the
    text after its closing quote. *)
Fixpoint read_string (fuel : nat) (s : string) : option (string * string) :=
  match fuel with
  | O => None
  | S fuel' =>
      match s with
      | EmptyString => None
      | String c s' =>
          if Ascii.eqb c dq then Some (EmptyString, s')
          else if Ascii.eqb c bs then
            match s' with
            | String e s'' =>
                '(c', rest) ←
                  (if Ascii.eqb e dq then Some (dq, s'')
                   else if Ascii.eqb e bs then Some (bs, s'')
                   else if Ascii.eqb e "/" then Some ("/"%char, s'')
                   else if Ascii.eqb e "n" then Some ("010"%char, s'')
                   else if Ascii.eqb e "r" then Some ("013"%char, s'')
                   else if Ascii.eqb e "t" then Some ("009"%char, s'')
                   else if Ascii.eqb e "b" then Some ("008"%char, s'')
                   else if Ascii.eqb e "f" then Some ("012"%char, s'')
                   else if Ascii.eqb e "u" then read_unicode s''
                   else None);
                '(body, rest') ← read_string fuel' rest;
                Some (String c' body, rest')
            | EmptyString => None
            end
          else if (nat_of_ascii c <? 32)%nat then None
          else
            '(body, rest) ← read_string fuel' s';
            Some (String c body, rest)
      end
  end.

(** An integer literal; a fraction or an exponent is not read. *)
Definition read_int (s : string) : option (Z * string) :=
  let '(neg, s1) :=
    match s with
    | String "-" s' => (true, s')
    | _ => (false, s)
    end in
  match s1 with
  | String c s2 =>
      d ← digit_val c;
      let '(n, rest) := if d =? 0 then (0, s2) else read_number d s2 in
      match rest with
      | String c' _ =>
          if Ascii.eqb c' "." || Ascii.eqb c' "e" || Ascii.eqb c' "E"
             || (if digit_val c' is Some _ then true else false)
          then None
          else Some (if neg then - n else n, rest)
      | EmptyString => Some (if neg then - n else n, rest)
      end
  | EmptyString => None
  end.

Fixpoint read_value (fuel : nat) (s : string) : option (value * string) :=
  match fuel with
  | O => None
  | S fuel' =>
      let s := skip_ws s in
      match s with
      | String "{" s' =>
          match skip_ws s' with
          | String "}" rest => Some (VObj ∅, rest)
          | s'' => read_members fuel' ∅ s''
          end
      | String "[" s' =>
          match skip_ws s' with
          | String "]" rest => Some (VArr [], rest)
          | s'' => read_elements fuel' [] s''
          end
      | String c s' =>
          if Ascii.eqb c dq then
            '(str, rest) ← read_string (String.length s) s';
            Some (VStr str, rest)
          else if Str.starts_with "true" s
          then (fun r => (VBool true, r)) <$> Str.strip_prefix "true" s
          else if Str.starts_with "false" s
          then (fun r => (VBool false, r)) <$> Str.strip_prefix "false" s
          else if Str.starts_with "null" s
          then (fun r => (VNull, r)) <$> Str.strip_prefix "null" s
          else '(n, rest) ← read_int s; Some (VNum n, rest)
      | EmptyString => None
      end
  end
with read_elements (fuel : nat) (acc : list value) (s : string)
    : option (value * string) :=
  match fuel with
  | O => None
  | S fuel' =>
      '(v, rest) ← read_value fuel' s;
      match skip_ws rest with
      | String "," rest' => read_elements fuel' (acc ++ [v]) rest'
      | String "]" rest' => Some (VArr (acc ++ [v]), rest')
      | _ => None
      end
  end
with read_members (fuel : nat) (acc : gmap string value) (s : string)
    : option (value * string) :=
  match fuel with
  | O => None
  | S fuel' =>
      s ← expect dq (skip_ws s);
      '(k, rest) ← read_string (String.length s) s;
      rest ← expect ":" (skip_ws rest);
      '(v, rest) ← read_value fuel' rest;
      match skip_ws rest with
      | String "," rest' => read_members fuel' (<[k := v]> acc) rest'
      | String "}" rest' => Some (VObj (<[k := v]> acc), rest')
      | _ => None
      end
  end.

Definition JSON_parse (text : string) : result value :=
  match read_value (S (String.length text)) text with
  | Some (v, rest) =>
      if Str.is_empty (skip_ws rest) then Return v else Throw SyntaxError
  | None => Throw SyntaxError
  end.

End Reference.

(** The reference platform, for a remote model and a network. *)
Definition reference (remote : list Gemini.Part -> Gemini.RemoteResult)
    (network : string -> FetchResult) : Platform :=
  {| JSON_parse := Reference.JSON_parse;
     JSON_stringify := Reference.JSON_stringify;
     Date_parse := Reference.Date_parse;
     toISOString := Reference.toISOString;
     Date_of_object := fun _ => None;
     quota_exceeded := fun _ _ _ => false;
     generateContent := remote;
     fetch := network |}.


(** ** Notions of the specification *)

(** The states of the orchestrator, as the boolean flags of [App] encode
    them: [isLoading] wins over the displayed creation. *)
Inductive OrchestratorState : Type :=
  | Idle
  | Generating
  | Active (c : Creation).

Definition orchestratorState (w : World) : OrchestratorState :=
  if isGenerating w then Generating
  else match activeCreation w with
       | Some c => Active c
       | None => Idle
       end.

(** The collection after a state update. *)
Definition applyUpdate {A} (u : Update A) (prev : A) : A :=
  match u with
  | Same => prev
  | Fresh a => a
  end.

(** No two creations of the collection have ids that [===] equates. *)
Fixpoint uniqueIds (h : list Creation) : bool :=
  match h with
  | [] => true
  | c :: h' => negb (App.idExists h' c) && uniqueIds h'
  end.

(** Some creation of the collection has an id that [===] equates with [i]. *)
Definition idInUse (h : list Creation) (i : value) : bool :=
  existsb (fun c' => JS.strict_eq (JS.field c' "id") i) h.


(** The world after a generation attempt that failed. *)
Definition generationFailed (w : World) : World :=
  {| activeCreation := None; isGenerating := false; history := history w;
     lang := lang w; historyChanged := historyChanged w;
     localStorage := localStorage w;
     alerts := alerts w ++ [App.GENERATION_FAILED (lang w)];
     fetched := fetched w |}.

(** The world after a generation attempt that made the creation [c]. *)
Definition generationSucceeded (c : Creation) (w : World) : World :=
  {| activeCreation := Some c; isGenerating := false;
     history := c :: history w;
     lang := lang w; historyChanged := true;
     localStorage := localStorage w; alerts := alerts w;
     fetched := fetched w |}.

(** The world after a notice was shown and nothing else happened. *)
Definition notified (msg : string) (w : World) : World :=
  {| activeCreation := activeCreation w; isGenerating := isGenerating w;
     history := history w; lang := lang w;
     historyChanged := historyChanged w;
     localStorage := localStorage w; alerts := alerts w ++ [msg];
     fetched := fetched w |}.

(** The world after the creation [c] was imported: it is displayed, and it
    is put in front of the collection unless its id is there already. *)
Definition importSucceeded (c : Creation) (w : World) : World :=
  {| activeCreation := Some c; isGenerating := isGenerating w;
     history := applyUpdate (App.prependIfNew c (history w)) (history w);
     lang := lang w;
     historyChanged := historyChanged w || negb (App.idExists (history w) c);
     localStorage := localStorage w; alerts := alerts w;
     fetched := fetched w |}.

(** The object of a document that the import accepts: the text parses to
    an object whose [html] and [name] are truthy and whose [timestamp] is
    not an object or an array on which the conversion to a primitive, and
    with it [new Date], throws. *)
Definition acceptedDocument (P : Platform) (json : string)
    : option (gmap string value) :=
  match JSON_parse P json with
  | Return (VObj m) =>
      if JS.truthy (JS.field m "html") && JS.truthy (JS.field m "name")
         && negb (JS.to_primitive_throws (JS.field m "timestamp"))
      then Some m else None
  | _ => None
  end.

(** The creation made of an accepted document [m]: its properties, with
    the timestamp as a date, the current time when there is none, and with
    a new identifier when it has no id. *)
Definition importedCreation (P : Platform) (m : gmap string value) (now : Z)
    (uuid : string) : Creation :=
  <["id" := JS.or_else (JS.field m "id") (VStr uuid)]>
    (<["timestamp" :=
         VDate (Json.time_value P
                  (JS.or_else (JS.field m "timestamp") (VNum now)))]> m).

(** The events of the orchestrator, each with what its awaits deliver. *)
Inductive Event : Type :=
  | Submit (promptText : string) (file : option File) (now : Z) (uuid : string)
  | Import (json : string) (now : Z) (uuid : string)
  | Reset
  | Select (c : Creation).

Definition handle (P : Platform) (e : Event) : M unit :=
  match e with
  | Submit promptText file now uuid => App.handleGenerate P promptText file now uuid
  | Import json now uuid => App.importOnload P json now uuid
  | Reset => App.handleReset
  | Select c => App.handleSelectCreation c
  end.

(** The world after a sequence of events, each followed by its render. *)
Fixpoint run (P : Platform) (es : list Event) (w : World) : World :=
  match es with
  | [] => w
  | e :: es' => run P es' (App.dispatch P (handle P e) w)
  end.

(** The insert that an event asks for, if any: the new creation of a
    generation that succeeded (the file was read, the remote call answered
    and its document is not empty), or the creation of a document that the
    import accepts, unless its id is the id of a creation of the collection.
    A reset or a selection asks for none. *)
Definition acceptedInsert (P : Platform) (e : Event) (w : World)
    : option Creation :=
  match e with
  | Submit promptText file now uuid =>
      match App.encodeFile file with
      | Return (imageBase64, mimeType) =>
          match Gemini.bringToLife (generateContent P) promptText
                  imageBase64 mimeType (lang w) with
          | Return html =>
              if Str.is_empty html then None
              else Some (App.newCreation uuid
                           (App.creationName (lang w) promptText file)
                           html imageBase64 mimeType now)
          | Throw _ => None
          end
      | Throw _ => None
      end
  | Import json now uuid =>
      match acceptedDocument P json with
      | Some m =>
          if idInUse (history w)
               (JS.or_else (JS.field m "id") (VStr uuid))
          then None
          else Some (importedCreation P m now uuid)
      | None => None
      end
  | Reset | Select _ => None
  end.

(** The accepted inserts of a sequence of events, in their order. *)
Fixpoint acceptedInserts (P : Platform) (es : list Event) (w : World)
    : list Creation :=
  match es with
  | [] => []
  | e :: es' =>
      match acceptedInsert P e w with
      | Some c => c :: acceptedInserts P es' (App.dispatch P (handle P e) w)
      | None => acceptedInserts P es' (App.dispatch P (handle P e) w)
      end
  end.

(** The creation an event put in the collection, if the collection grew. *)
Definition insertedBy (before after : list Creation) : option Creation :=
  match after with
  | c :: rest => if (length rest =? length before)%nat then Some c else None
  | [] => None
  end.

(** The world after the requests for [urls] were issued. *)
Definition fetchedMore (urls : list string) (w : World) : World :=
  {| activeCreation := activeCreation w; isGenerating := isGenerating w;
     history := history w; lang := lang w;
     historyChanged := historyChanged w;
     localStorage := localStorage w; alerts := alerts w;
     fetched := fetched w ++ urls |}.

(** The world after [setHistory(h)] for a new array [h]. *)
Definition withHistory (h : list Creation) (w : World) : World :=
  {| activeCreation := activeCreation w; isGenerating := isGenerating w;
     history := h; lang := lang w; historyChanged := true;
     localStorage := localStorage w; alerts := alerts w;
     fetched := fetched w |}.

(** What the joined example requests deliver: the examples, null for each
    response that is not ok, or the first rejection. *)
Definition seedResults (P : Platform) (now : Z) (uuid : string -> string)
    : result (list (option Creation)) :=
  App.mapR (fun ur => App.exampleOf P now (uuid ur.1) ur.2)
    (map (fun url => (url, fetch P url)) App.exampleUrls).

(** ** Scenarios

    Concrete inputs on the reference platform. *)


(** ** Notions for the further properties *)

(** The text is white space only. *)
Fixpoint all_spaces (s : string) : bool :=
  match s with
  | EmptyString => true
  | String c s' => Str.js_space c && all_spaces s'
  end.

(** The text does not start with white space. *)
Definition no_leading_space (s : string) : bool :=
  match s with
  | EmptyString => true
  | String c _ => negb (Str.js_space c)
  end.

(** The world after a generation attempt that made nothing and showed
    nothing. *)
Definition generationDropped (w : World) : World :=
  {| activeCreation := None; isGenerating := false; history := history w;
     lang := lang w; historyChanged := historyChanged w;
     localStorage := localStorage w; alerts := alerts w;
     fetched := fetched w |}.

(** Two creations have the same properties, an undefined property counting
    as a missing one. *)
Definition sameFields (c c' : Creation) : Prop :=
  forall k, JS.field c k = JS.field c' k.

(** A creation that the archive can hold: its timestamp is a valid date
    whose ISO text [Date.parse] reads back, and each other property is
    undefined or a value that JSON text holds as it is. *)
Definition durable (P : Platform) (c : Creation) : Prop :=
  (exists t, c !! "timestamp" = Some (VDate (Some t))
             /\ Date_parse P (toISOString P t) = Some t)
  /\ (forall k v, k <> "timestamp" -> c !! k = Some v ->
                  v = VUndefined \/ Json.to_json P v = Some v).

(** The archive holds the text of the collection, unless the collection is
    empty. *)
Definition archived (P : Platform) (w : World) : Prop :=
  history w = []
  \/ localStorage w !! App.HISTORY_KEY
     = Some (JSON_stringify P (App.historyValue (history w)) 0).

(** The saved text cannot be read as a collection: it does not parse, or it
    does not parse to an array, or a null stands in the array. *)
Definition unreadable (P : Platform) (text : string) : Prop :=
  match JSON_parse P text with
  | Throw _ => True
  | Return (VArr items) => In VNull items
  | Return _ => True
  end.

(** The world after a render that had the saving effect to run. *)
Definition rendered (P : Platform) (w : World) : World :=
  {| activeCreation := activeCreation w; isGenerating := isGenerating w;
     history := history w; lang := lang w; historyChanged := false;
     localStorage :=
       if (0 <? length (history w))%nat
          && negb (quota_exceeded P (localStorage w) App.HISTORY_KEY
                     (JSON_stringify P (App.historyValue (history w)) 0))
       then <[App.HISTORY_KEY :=
                JSON_stringify P (App.historyValue (history w)) 0]>
              (localStorage w)
       else localStorage w;
     alerts := alerts w; fetched := fetched w |}.

(** The creation that seeding makes of the example at [url], when its
    response is ok and its body is read. *)
Definition seededFrom (P : Platform) (now : Z) (uuid : string -> string)
    (url : string) : option Creation :=
  match fetch P url with
  | FetchResponse true (Return data) =>
      match App.withTimestampAndId P data now (uuid url) with
      | Return c => Some c
      | Throw _ => None
      end
  | _ => None
  end.

(** The request for the example at [url] is answered, and a body that goes
    with an ok response is read, is not null, and has no timestamp on which
    [new Date] throws. *)
Definition answered (P : Platform) (url : string) : Prop :=
  match fetch P url with
  | FetchRejected => False
  | FetchResponse false _ => True
  | FetchResponse true (Throw _) => False
  | FetchResponse true (Return VNull) => False
  | FetchResponse true (Return VUndefined) => False
  | FetchResponse true (Return (VObj m)) =>
      JS.to_primitive_throws (JS.field m "timestamp") = false
  | FetchResponse true (Return _) => True
  end.

(** A character of a file name made by the export: a lower case letter, a
    digit or an underscore. *)
Definition file_safe (c : ascii) : bool :=
  let n := nat_of_ascii c in
  ((48 <=? n)%nat && (n <=? 57)%nat)
  || ((97 <=? n)%nat && (n <=? 122)%nat)
  || (n =? 95)%nat.

Fixpoint all_chars (p : ascii -> bool) (s : string) : bool :=
  match s with
  | EmptyString => true
  | String c s' => p c && all_chars p s'
  end.

Module Scenario.

(** 2025-01-01T00:00:00.123Z *)
Definition NOW : Z := 1735689600123.

Definition UUID : string := "123e4567-e89b-42d3-a456-426614174000".
Definition UUID2 : string := "9b2d6f0c-5a1e-4c3b-8f7a-0d1e2f3a4b5c".

Definition seedUuid (url : string) : string := "seed:" +:+ url.

(** Remote models: one that answers nothing, one that answers the empty
    text, one that rejects, one that answers a document. *)
Definition silentModel (_ : list Gemini.Part) : Gemini.RemoteResult :=
  Gemini.Responded None.
Definition emptyModel (_ : list Gemini.Part) : Gemini.RemoteResult :=
  Gemini.Responded (Some EmptyString).
Definition failingModel (_ : list Gemini.Part) : Gemini.RemoteResult :=
  Gemini.Rejected.
Definition answeringModel (_ : list Gemini.Part) : Gemini.RemoteResult :=
  Gemini.Responded (Some "<!DOCTYPE html><p>clock</p>").

(** The example document served at [url]. *)
Definition exampleAt (url : string) : value :=
  VObj (<["id" := VStr url]>
       (<["name" := VStr "example"]>
       (<["html" := VStr "<!DOCTYPE html><p>example</p>"]> ∅))).

(** Networks: every example is served; the first request is rejected; the
    first response is not ok; the first body is not JSON. *)
Definition served (url : string) : FetchResult :=
  FetchResponse true (Return (exampleAt url)).
Definition firstUrl : string :=
  "https://storage.googleapis.com/sideprojects-asronline/bringanythingtolife/vibecode-blog.json".
Definition firstRejected (url : string) : FetchResult :=
  if String.eqb url firstUrl then FetchRejected else served url.
Definition firstNotOk (url : string) : FetchResult :=
  if String.eqb url firstUrl then FetchResponse false (Throw SyntaxError)
  else served url.
Definition firstUnreadable (url : string) : FetchResult :=
  if String.eqb url firstUrl then FetchResponse true (Throw SyntaxError)
  else served url.

(** An archive that holds the empty collection. *)
Definition emptyArchive : gmap string string :=
  {[ App.HISTORY_KEY := "[]" ]}.

(** An archive that holds one creation. *)
Definition savedText : string :=
  Reference.quoted
    "[{'id':'a1','name':'clock','html':'<p>clock</p>','timestamp':'2025-01-01T00:00:00.123Z'}]".
Definition savedArchive : gmap string string :=
  {[ App.HISTORY_KEY := savedText ]}.
Definition savedItem : gmap string value :=
  <["id" := VStr "a1"]>
  (<["name" := VStr "clock"]>
  (<["html" := VStr "<p>clock</p>"]>
  (<["timestamp" := VStr "2025-01-01T00:00:00.123Z"]> ∅))).
Definition savedCreation : Creation :=
  <["timestamp" := VDate (Some NOW)]> savedItem.


(** A document that carries the id [UUID]. *)
Definition importedText : string :=
  Reference.quoted
    "{'id':'123e4567-e89b-42d3-a456-426614174000','name':'imported','html':'<p>old</p>'}".

(** A document with the two mandatory fields and nothing else. *)
Definition plainText : string :=
  Reference.quoted "{'html':'<p>new</p>','name':'plain'}".

(** A creation as [handleGenerate] makes it. *)
Definition clock : Creation :=
  App.newCreation UUID "a chess clock" "<!DOCTYPE html><p>clock</p>"
    None None NOW.

(** A network whose example documents have an empty [html], and the creation
    that seeding makes of the first of them. *)
Definition servedBlank (url : string) : FetchResult :=
  FetchResponse true
    (Return (VObj (<["id" := VStr url]>
                  (<["name" := VStr "draft"]>
                  (<["html" := VStr EmptyString]> ∅))))).
Definition blank : Creation :=
  <["id" := VStr firstUrl]>
  (<["timestamp" := VDate (Some NOW)]>
  (<["name" := VStr "draft"]>
  (<["html" := VStr EmptyString]> ∅))).

(** A model that answers one fence and nothing else. *)
Definition fenceModel (_ : list Gemini.Part) : Gemini.RemoteResult :=
  Gemini.Responded (Some "```").

(** Files: a picture, a picture whose payload is empty, a text file. *)
Definition sketch : File :=
  {| file_name := "sketch.png"; file_type := "image/png";
     file_dataURL := Return (Some "data:image/png;base64,iVBORw0KGgo=") |}.
Definition emptyPicture : File :=
  {| file_name := "empty.png"; file_type := "image/png";
     file_dataURL := Return (Some "data:image/png;base64,") |}.
Definition notes : File :=
  {| file_name := "notes.txt"; file_type := "text/plain";
     file_dataURL := Return (Some "data:text/plain;base64,aGk=") |}.

(** An archive whose text is an array in which a null stands. *)
Definition nullArchive : gmap string string :=
  {[ App.HISTORY_KEY := "[null]" ]}.



(** A document whose timestamp is an object with a property [toString],
    an archive that holds it, and a network that serves it. *)
Definition unconvertibleText : string :=
  Reference.quoted
    "{'id':'abc','name':'n','html':'<p>x</p>','timestamp':{'toString':1}}".
Definition unconvertibleArchive : gmap string string :=
  {[ App.HISTORY_KEY := "[" +:+ unconvertibleText +:+ "]" ]}.
Definition servedUnconvertible (url : string) : FetchResult :=
  FetchResponse true (Reference.JSON_parse unconvertibleText).

(** States of the input field: blanks, and a text between blanks. *)
Definition blankField : InputArea.State :=
  {| InputArea.prompt := "   "; InputArea.isDragging := false |}.
Definition typedField : InputArea.State :=
  {| InputArea.prompt := "  a chess clock "; InputArea.isDragging := false |}.

(** The platform [P] with a store that refuses every write. *)
Definition fullStore (P : Platform) : Platform :=
  {| JSON_parse := JSON_parse P;
     JSON_stringify := JSON_stringify P;
     Date_parse := Date_parse P;
     toISOString := toISOString P;
     Date_of_object := Date_of_object P;
     quota_exceeded := fun _ _ _ => true;
     generateContent := generateContent P;
     fetch := fetch P |}.

End Scenario.

(** * Theorems *)

Ltac unfold_eff :=
  unfold Eff.exec, Eff.finally, Eff.try_catch, Eff.lift, Eff.getLang,
    Eff.setIsGenerating, Eff.setActiveCreation, Eff.setHistory, Eff.alert,
    Eff.getItem, Eff.clearHistoryChanged, mbind, M_bind, mret, M_ret; simpl.

Section Generation.
Variable P : Platform.

(** What one generation attempt does, by the outcome of its awaits. *)
Lemma handleGenerate_exec w promptText file now uuid :
  Eff.exec (App.handleGenerate P promptText file now uuid) w =
  match App.encodeFile file with
  | Throw _ => generationFailed w
  | Return (imageBase64, mimeType) =>
      match Gemini.bringToLife (generateContent P) promptText
              imageBase64 mimeType (lang w) with
      | Throw _ => generationFailed w
      | Return html =>
          if Str.is_empty html
          then {| activeCreation := None; isGenerating := false;
                  history := history w; lang := lang w;
                  historyChanged := historyChanged w;
                  localStorage := localStorage w; alerts := alerts w;
                  fetched := fetched w |}
          else generationSucceeded
                 (App.newCreation uuid
                    (App.creationName (lang w) promptText file) html
                    imageBase64 mimeType now) w
      end
  end.
Proof.
  unfold App.handleGenerate. unfold_eff.
  destruct (App.encodeFile file) as [[b m]|e]; simpl; [|reflexivity].
  destruct (Gemini.bringToLife _ _ _ _ _) as [html|e]; simpl; [|reflexivity].
  destruct (Str.is_empty html); reflexivity.
Qed.

Lemma bringToLife_rejected prompt fileBase64 mimeType l :
  generateContent P (Gemini.requestParts prompt fileBase64 mimeType l)
    = Gemini.Rejected ->
  Gemini.bringToLife (generateContent P) prompt fileBase64 mimeType l
    = Throw TransportError.
Proof. intros H. unfold Gemini.bringToLife. rewrite H. reflexivity. Qed.

Lemma bringToLife_empty prompt fileBase64 mimeType l text :
  generateContent P (Gemini.requestParts prompt fileBase64 mimeType l)
    = Gemini.Responded text ->
  Gemini.truthy_opt text = false ->
  Gemini.bringToLife (generateContent P) prompt fileBase64 mimeType l
    = Return Gemini.PLACEHOLDER.
Proof.
  intros H Ht. unfold Gemini.bringToLife. rewrite H.
  destruct text as [[|c t]|]; simpl in *; try discriminate; reflexivity.
Qed.

End Generation.

(** ** The prompt composer *)

Lemma is_empty_app_r (a b : string) :
  Str.is_empty b = false -> Str.is_empty (a +:+ b) = false.
Proof. destruct a; simpl; [trivial | reflexivity]. Qed.

Lemma append_assoc (a b c : string) : (a +:+ b) +:+ c = a +:+ (b +:+ c).
Proof.
  induction a as [|x a IH]; [reflexivity|].
  change (String x ((a +:+ b) +:+ c) = String x (a +:+ (b +:+ c))).
  rewrite IH. reflexivity.
Qed.

(** The instruction text is never empty: the locale clause is always there. *)
Lemma finalPrompt_not_empty prompt fileBase64 l :
  Str.is_empty (Gemini.finalPrompt prompt fileBase64 l) = false.
Proof.
  unfold Gemini.finalPrompt. apply is_empty_app_r. destruct l; reflexivity.
Qed.

(** A file that is there selects the analysis directive, whatever the text. *)
Lemma finalPrompt_with_file prompt fileBase64 l :
  Gemini.truthy_opt fileBase64 = true ->
  Str.starts_with Gemini.FILE_DIRECTIVE
    (Gemini.finalPrompt prompt fileBase64 l) = true.
Proof.
  intros H. unfold Gemini.finalPrompt. rewrite H.
  assert (Hp : forall a b, Str.starts_with a (a +:+ b) = true).
  { intros a b. unfold Str.starts_with.
    assert (Hs : Str.strip_prefix a (a +:+ b) = Some b).
    { induction a as [|c a IH]; simpl; [reflexivity|].
      rewrite Ascii.eqb_refl. exact IH. }
    rewrite Hs. reflexivity. }
  destruct (_ && _).
  - rewrite append_assoc. apply Hp.
  - apply Hp.
Qed.

Lemma trim_empty_length s :
  Str.is_empty (Str.trim s) = true -> (0 <? String.length (Str.trim s))%nat = false.
Proof. destruct (Str.trim s); [reflexivity | discriminate]. Qed.

(** C2, at the input with no file and empty text: the instruction text is the
    locale clause alone, so it is not empty, and the demo request is not part
    of it.  With no file and a text of white space only, the instruction text
    is that text followed by the locale clause. *)
Theorem no_file_empty_text_prompt_lacks_demo_request (l : Gemini.Lang) :
  Gemini.finalPrompt EmptyString None l = Gemini.context_clause l
  /\ Str.is_empty (Gemini.finalPrompt EmptyString None l) = false
  /\ Str.includes Gemini.DEMO_REQUEST (Gemini.finalPrompt EmptyString None l)
     = false
  /\ (forall prompt,
        Str.is_empty (Str.trim prompt) = true ->
        Gemini.finalPrompt prompt None l = prompt +:+ Gemini.context_clause l).
Proof.
  split; [destruct l; vm_compute; reflexivity|].
  split; [destruct l; vm_compute; reflexivity|].
  split; [destruct l; vm_compute; reflexivity|].
  intros prompt H. unfold Gemini.finalPrompt. simpl.
  rewrite (trim_empty_length _ H), andb_false_r. reflexivity.
Qed.

(** ** Generation attempts *)

Section GenerationClaims.
Variable P : Platform.

Lemma handleGenerate_returns w promptText file now uuid :
  App.handleGenerate P promptText file now uuid w =
  (Return (), Eff.exec (App.handleGenerate P promptText file now uuid) w).
Proof.
  unfold App.handleGenerate. unfold_eff.
  destruct (App.encodeFile file) as [[b m]|e]; simpl; [|reflexivity].
  destruct (Gemini.bringToLife _ _ _ _ _) as [html|e]; simpl; [|reflexivity].
  destruct (Str.is_empty html); reflexivity.
Qed.

Lemma render_idle w :
  historyChanged w = false -> App.render P w = (Return (), w).
Proof. intros H. unfold App.render. rewrite H. reflexivity. Qed.

Lemma dispatch_returns (handler : M unit) w w' :
  handler w = (Return (), w') ->
  App.dispatch P handler w = Eff.exec (App.render P) w'.
Proof.
  intros H. unfold App.dispatch, Eff.exec, mbind, M_bind. rewrite H.
  reflexivity.
Qed.

(** C1, as amended: an empty answer of the model is replaced by the
    placeholder document, which [bringToLife] returns and from which the
    orchestrator makes a creation that it displays and puts in front of the
    collection, with no notice; and [bringToLife] throws exactly when the
    remote call is rejected, whatever the request is. *)
Theorem empty_result_yields_placeholder_creation
    w promptText file now uuid imageBase64 mimeType text :
  App.encodeFile file = Return (imageBase64, mimeType) ->
  generateContent P
    (Gemini.requestParts promptText imageBase64 mimeType (lang w))
    = Gemini.Responded text ->
  Gemini.truthy_opt text = false ->
  Gemini.bringToLife (generateContent P) promptText imageBase64 mimeType
    (lang w) = Return Gemini.PLACEHOLDER
  /\ Eff.exec (App.handleGenerate P promptText file now uuid) w =
     generationSucceeded
       (App.newCreation uuid (App.creationName (lang w) promptText file)
          Gemini.PLACEHOLDER imageBase64 mimeType now) w
  /\ alerts (Eff.exec (App.handleGenerate P promptText file now uuid) w)
     = alerts w
  /\ (forall prompt fileBase64 mime l,
        (exists e,
           Gemini.bringToLife (generateContent P) prompt fileBase64 mime l
           = Throw e)
        <-> generateContent P (Gemini.requestParts prompt fileBase64 mime l)
            = Gemini.Rejected).
Proof.
  intros Henc Hgen Htext.
  pose proof (bringToLife_empty P _ _ _ _ _ Hgen Htext) as Hb.
  split; [exact Hb|].
  assert (Hw : Eff.exec (App.handleGenerate P promptText file now uuid) w =
               generationSucceeded
                 (App.newCreation uuid
                    (App.creationName (lang w) promptText file)
                    Gemini.PLACEHOLDER imageBase64 mimeType now) w)
    by (rewrite handleGenerate_exec, Henc, Hb; reflexivity).
  split; [exact Hw|]. split; [rewrite Hw; reflexivity|].
  intros prompt fileBase64 mime l. split.
  - intros [e He]. unfold Gemini.bringToLife in He.
    destruct (generateContent P
                (Gemini.requestParts prompt fileBase64 mime l));
      [reflexivity | discriminate].
  - intros H. exists TransportError. apply bringToLife_rejected, H.
Qed.

(** C9: when the remote call of a generation attempt throws, the
    orchestrator is idle afterwards, the collection and the saved archive are
    what they were, and the failure notice of the locale is shown. *)
Theorem failed_generation_returns_to_idle
    w promptText file now uuid imageBase64 mimeType :
  App.encodeFile file = Return (imageBase64, mimeType) ->
  generateContent P
    (Gemini.requestParts promptText imageBase64 mimeType (lang w))
    = Gemini.Rejected ->
  historyChanged w = false ->
  let w' := App.dispatch P (App.handleGenerate P promptText file now uuid) w in
  w' = generationFailed w
  /\ orchestratorState w' = Idle
  /\ history w' = history w
  /\ localStorage w' = localStorage w
  /\ alerts w' = alerts w ++ [App.GENERATION_FAILED (lang w)].
Proof.
  intros Henc Hgen Hch w'.
  assert (Hw : w' = generationFailed w).
  { unfold w'. rewrite (dispatch_returns _ _ _ (handleGenerate_returns _ _ _ _ _)).
    rewrite handleGenerate_exec, Henc, (bringToLife_rejected P _ _ _ _ Hgen).
    unfold Eff.exec. rewrite render_idle; [reflexivity | exact Hch]. }
  rewrite Hw. repeat split; reflexivity.
Qed.

End GenerationClaims.

(** ** Import *)

Section ImportClaims.
Variable P : Platform.

Lemma to_primitive_throws_or_else ts now :
  JS.to_primitive_throws (JS.or_else ts (VNum now))
  = JS.to_primitive_throws ts.
Proof.
  unfold JS.or_else.
  destruct ts as [| |b|n|s|t|l|m]; simpl; try reflexivity.
  - destruct b; reflexivity.
  - destruct (negb (n =? 0)); reflexivity.
  - destruct (negb (Str.is_empty s)); reflexivity.
Qed.

Lemma Date_new_or_else ts now :
  Json.Date_new P (JS.or_else ts (VNum now))
  = if JS.to_primitive_throws ts then Throw TypeError
    else Return (Json.time_value P (JS.or_else ts (VNum now))).
Proof.
  unfold Json.Date_new. rewrite to_primitive_throws_or_else. reflexivity.
Qed.

Lemma withTimestampAndId_object m now uuid :
  App.withTimestampAndId P (VObj m) now uuid =
  if JS.to_primitive_throws (JS.field m "timestamp") then Throw TypeError
  else Return (importedCreation P m now uuid).
Proof.
  unfold App.withTimestampAndId. simpl.
  change (default VUndefined (m !! "timestamp")) with (JS.field m "timestamp").
  rewrite Date_new_or_else.
  destruct (JS.to_primitive_throws (JS.field m "timestamp")); reflexivity.
Qed.

Lemma import_update c w :
  Eff.exec (Eff.setHistory (App.prependIfNew c);;
            Eff.setActiveCreation (Some c)) w = importSucceeded c w.
Proof.
  unfold importSucceeded, App.prependIfNew. unfold_eff.
  destruct (App.idExists (history w) c); simpl.
  - rewrite orb_false_r. reflexivity.
  - rewrite orb_true_r. reflexivity.
Qed.

(** What the [onload] callback does, by what the text parses to. *)
Lemma importOnload_run w json now uuid :
  App.importOnload P json now uuid w =
  (Return (),
   match JSON_parse P json with
   | Throw _ | Return VUndefined | Return VNull =>
       notified (App.IMPORT_FAILED (lang w)) w
   | Return (VObj m) =>
       if JS.truthy (JS.field m "html") && JS.truthy (JS.field m "name")
       then if JS.to_primitive_throws (JS.field m "timestamp")
            then notified (App.IMPORT_FAILED (lang w)) w
            else importSucceeded (importedCreation P m now uuid) w
       else notified (App.INVALID_FORMAT (lang w)) w
   | Return _ => notified (App.INVALID_FORMAT (lang w)) w
   end).
Proof.
  unfold App.importOnload. unfold_eff.
  destruct (JSON_parse P json) as [parsed|e]; simpl; [|reflexivity].
  destruct parsed as [| |b|n|s|t|l|m]; simpl; try reflexivity.
  change (default VUndefined (m !! "html")) with (JS.field m "html").
  destruct (JS.truthy (JS.field m "html")); simpl; [|reflexivity].
  change (default VUndefined (m !! "name")) with (JS.field m "name").
  destruct (JS.truthy (JS.field m "name")); simpl; [|reflexivity].
  rewrite withTimestampAndId_object.
  destruct (JS.to_primitive_throws (JS.field m "timestamp")); simpl;
    [reflexivity|].
  unfold importSucceeded, App.prependIfNew.
  destruct (App.idExists (history w) _); simpl;
    rewrite ?orb_false_r, ?orb_true_r; reflexivity.
Qed.

Lemma acceptedDocument_inv json m :
  acceptedDocument P json = Some m ->
  JSON_parse P json = Return (VObj m)
  /\ JS.truthy (JS.field m "html") = true
  /\ JS.truthy (JS.field m "name") = true
  /\ JS.to_primitive_throws (JS.field m "timestamp") = false.
Proof.
  unfold acceptedDocument.
  destruct (JSON_parse P json) as [parsed|e]; [|discriminate].
  destruct parsed as [| |b|n|s|t|l|m']; try discriminate.
  destruct (JS.truthy (JS.field m' "html")) eqn:Hh; [|discriminate].
  destruct (JS.truthy (JS.field m' "name")) eqn:Hn; [|discriminate].
  destruct (JS.to_primitive_throws _) eqn:Ht; [discriminate|].
  simpl. intros [= <-]. repeat split; assumption.
Qed.

(** The import of a document that is accepted. *)
Lemma import_accepted json now uuid w m :
  acceptedDocument P json = Some m ->
  App.importOnload P json now uuid w
  = (Return (), importSucceeded (importedCreation P m now uuid) w).
Proof.
  unfold acceptedDocument. rewrite importOnload_run.
  destruct (JSON_parse P json) as [parsed|e]; [|discriminate].
  destruct parsed as [| |b|n|s|t|l|m']; try discriminate.
  destruct (JS.truthy _ && JS.truthy _); [|discriminate].
  destruct (JS.to_primitive_throws _); [discriminate|].
  simpl. intros [= ->]. reflexivity.
Qed.

(** The import of a text that is not accepted. *)
Lemma import_refused json now uuid w :
  acceptedDocument P json = None ->
  exists msg,
    App.importOnload P json now uuid w = (Return (), notified msg w)
    /\ (msg = App.INVALID_FORMAT (lang w) \/ msg = App.IMPORT_FAILED (lang w)).
Proof.
  unfold acceptedDocument. rewrite importOnload_run.
  destruct (JSON_parse P json) as [parsed|e]; [|eauto].
  destruct parsed as [| |b|n|s|t|l|m']; eauto.
  destruct (JS.truthy _ && JS.truthy _); [|eauto].
  destruct (JS.to_primitive_throws _); [eauto | discriminate].
Qed.

Lemma field_insert_eq (m : gmap string value) k v :
  JS.field (<[k := v]> m) k = v.
Proof. unfold JS.field. rewrite lookup_insert_eq. reflexivity. Qed.

Lemma field_insert_ne (m : gmap string value) k k' v :
  k <> k' -> JS.field (<[k := v]> m) k' = JS.field m k'.
Proof. intros H. unfold JS.field. rewrite lookup_insert_ne; auto. Qed.


End ImportClaims.

(** ** The saving effect and the render *)

Section RenderFacts.
Variable P : Platform.

(** The saving effect writes the archive or does nothing: no other part of
    the world changes. *)
Lemma persistEffect_run w :
  App.persistEffect P w =
  (Return (),
   if (0 <? length (history w))%nat
      && negb (quota_exceeded P (localStorage w) App.HISTORY_KEY
                 (JSON_stringify P (App.historyValue (history w)) 0))
   then {| activeCreation := activeCreation w; isGenerating := isGenerating w;
           history := history w; lang := lang w;
           historyChanged := historyChanged w;
           localStorage :=
             <[App.HISTORY_KEY :=
                 JSON_stringify P (App.historyValue (history w)) 0]>
               (localStorage w);
           alerts := alerts w; fetched := fetched w |}
   else w).
Proof.
  unfold App.persistEffect, Eff.try_catch, Eff.setItem.
  destruct (0 <? length (history w))%nat; simpl; [|reflexivity].
  destruct (quota_exceeded P _ _ _); reflexivity.
Qed.

Lemma persistEffect_history w :
  history (Eff.exec (App.persistEffect P) w) = history w.
Proof.
  unfold Eff.exec. rewrite persistEffect_run. simpl.
  destruct (_ && _); reflexivity.
Qed.

Lemma render_history w : history (Eff.exec (App.render P) w) = history w.
Proof.
  unfold Eff.exec, App.render.
  destruct (historyChanged w); [|reflexivity].
  unfold mbind, M_bind. rewrite persistEffect_run. simpl.
  destruct (_ && _); reflexivity.
Qed.

Lemma render_activeCreation w :
  activeCreation (Eff.exec (App.render P) w) = activeCreation w.
Proof.
  unfold Eff.exec, App.render.
  destruct (historyChanged w); [|reflexivity].
  unfold mbind, M_bind. rewrite persistEffect_run. simpl.
  destruct (_ && _); reflexivity.
Qed.

(** What a render leaves in the archive. *)
Lemma render_localStorage w :
  localStorage (Eff.exec (App.render P) w) =
  if historyChanged w
     && (0 <? length (history w))%nat
     && negb (quota_exceeded P (localStorage w) App.HISTORY_KEY
                (JSON_stringify P (App.historyValue (history w)) 0))
  then <[App.HISTORY_KEY :=
           JSON_stringify P (App.historyValue (history w)) 0]>
         (localStorage w)
  else localStorage w.
Proof.
  unfold Eff.exec, App.render.
  destruct (historyChanged w); [|reflexivity].
  unfold mbind, M_bind. rewrite persistEffect_run. simpl.
  destruct (_ && _); reflexivity.
Qed.

Lemma fetchAll_run urls w :
  App.fetchAll P urls w =
  (Return (map (fun url => (url, fetch P url)) urls), fetchedMore urls w).
Proof.
  revert w. induction urls as [|url urls IH]; intros w; simpl.
  - unfold mret, M_ret, fetchedMore. rewrite app_nil_r. destruct w; reflexivity.
  - unfold mbind, M_bind, Eff.doFetch at 1. rewrite IH.
    unfold mret, M_ret, fetchedMore. simpl. rewrite <- app_assoc. reflexivity.
Qed.

(** What seeding does, by what the example requests deliver. *)
Lemma seedExamples_run now uuid w :
  App.seedExamples P now uuid w =
  (Return (),
   match seedResults P now uuid with
   | Return examples =>
       withHistory (omap id examples) (fetchedMore App.exampleUrls w)
   | Throw _ => fetchedMore App.exampleUrls w
   end).
Proof.
  unfold App.seedExamples, Eff.try_catch, mbind, M_bind.
  rewrite fetchAll_run. unfold Eff.lift, seedResults.
  destruct (App.mapR _ _); reflexivity.
Qed.

(** What loading does, by what the archive holds. *)
Lemma initHistory_run now uuid w :
  App.initHistory P now uuid w =
  (Return (),
   let loaded := App.loadedHistory P (localStorage w !! App.HISTORY_KEY) in
   if (0 <? length loaded)%nat then withHistory loaded w
   else match seedResults P now uuid with
        | Return examples =>
            withHistory (omap id examples) (fetchedMore App.exampleUrls w)
        | Throw _ => fetchedMore App.exampleUrls w
        end).
Proof.
  unfold App.initHistory, mbind, M_bind, Eff.getItem. simpl.
  destruct (0 <? _)%nat; [reflexivity|]. apply seedExamples_run.
Qed.

Lemma mount_run now uuid storage :
  App.mount P now uuid storage =
  Eff.exec (App.render P)
    (snd (App.initHistory P now uuid (App.initial storage))).
Proof.
  unfold App.mount.
  assert (Hw0 : Eff.exec (App.persistEffect P) (App.initial storage)
                = App.initial storage).
  { unfold Eff.exec. rewrite persistEffect_run. reflexivity. }
  rewrite Hw0. apply dispatch_returns. rewrite initHistory_run. reflexivity.
Qed.

End RenderFacts.

(** ** Loading and seeding *)

Section LoadClaims.
Variable P : Platform.

Lemma loadedHistory_parsed text parsed loaded :
  Str.is_empty text = false ->
  JSON_parse P text = Return parsed ->
  App.reviveAll P parsed = Return loaded ->
  App.loadedHistory P (Some text) = loaded.
Proof.
  intros He Hp Hr. unfold App.loadedHistory. rewrite He, Hp. simpl.
  rewrite Hr. reflexivity.
Qed.

(** A rejected request, or a body that cannot be read, ends the join of the
    example requests: nothing is seeded. *)
Lemma seeding_aborted now uuid storage e :
  App.loadedHistory P (storage !! App.HISTORY_KEY) = [] ->
  seedResults P now uuid = Throw e ->
  history (App.mount P now uuid storage) = []
  /\ localStorage (App.mount P now uuid storage) = storage.
Proof.
  intros Hl Hs.
  rewrite mount_run, render_history, render_localStorage, initHistory_run.
  simpl. rewrite Hl, Hs. simpl. split; reflexivity.
Qed.

(** C3, as amended: when the archive holds a text that parses and is read as
    a collection, that collection is used and no example is requested if it
    has at least one creation; if it is empty, the examples are requested. *)
Theorem persisted_history_takes_precedence_when_nonempty
    now uuid storage text parsed loaded :
  storage !! App.HISTORY_KEY = Some text ->
  Str.is_empty text = false ->
  JSON_parse P text = Return parsed ->
  App.reviveAll P parsed = Return loaded ->
  let w := App.mount P now uuid storage in
  (loaded <> [] -> history w = loaded /\ fetched w = [])
  /\ (loaded = [] -> fetched w = App.exampleUrls).
Proof.
  intros Hs He Hp Hr w. unfold w.
  rewrite mount_run, initHistory_run. simpl.
  rewrite Hs, (loadedHistory_parsed _ _ _ He Hp Hr).
  split.
  - intros Hne. destruct loaded as [|c l]; [congruence|]. simpl.
    rewrite render_history. split; [reflexivity|].
    unfold Eff.exec, App.render. simpl.
    unfold mbind, M_bind. rewrite persistEffect_run. simpl.
    destruct (negb _); reflexivity.
  - intros ->. simpl.
    unfold Eff.exec, App.render.
    destruct (seedResults P now uuid); simpl; [|reflexivity].
    unfold mbind, M_bind. rewrite persistEffect_run. simpl.
    destruct (_ && _); reflexivity.
Qed.

End LoadClaims.

(** ** Insertion *)

Section InsertClaims.
Variable P : Platform.

Lemma idExists_idInUse prev c :
  App.idExists prev c = idInUse prev (JS.field c "id").
Proof. reflexivity. Qed.




Lemma handler_returns e w :
  handle P e w = (Return (), Eff.exec (handle P e) w).
Proof.
  destruct e as [promptText file now uuid|json now uuid| |c]; simpl.
  - apply handleGenerate_returns.
  - unfold Eff.exec. rewrite importOnload_run. reflexivity.
  - reflexivity.
  - reflexivity.
Qed.

Lemma dispatch_history e w :
  history (App.dispatch P (handle P e) w) = history (Eff.exec (handle P e) w).
Proof.
  rewrite (dispatch_returns P _ _ _ (handler_returns e w)).
  apply render_history.
Qed.

Lemma insertedBy_same h : insertedBy h h = None.
Proof.
  destruct h as [|c h]; [reflexivity|]. simpl.
  destruct (Nat.eqb_spec (length h) (S (length h))); [lia | reflexivity].
Qed.

Lemma insertedBy_cons c h : insertedBy h (c :: h) = Some c.
Proof. simpl. rewrite Nat.eqb_refl. reflexivity. Qed.

Lemma importedCreation_id m now uuid :
  JS.field (importedCreation P m now uuid) "id"
  = JS.or_else (JS.field m "id") (VStr uuid).
Proof. unfold importedCreation. apply field_insert_eq. Qed.

(** The collection after an event is the collection before it, with the
    accepted insert of the event, if there is one, in front. *)
Lemma event_history e w :
  history (App.dispatch P (handle P e) w) =
  match acceptedInsert P e w with
  | Some c => c :: history w
  | None => history w
  end.
Proof.
  rewrite dispatch_history.
  destruct e as [promptText file now uuid|json now uuid| |c]; simpl;
    try reflexivity.
  - rewrite handleGenerate_exec.
    destruct (App.encodeFile file) as [[b m]|e]; [|reflexivity].
    destruct (Gemini.bringToLife _ _ _ _ _) as [html|e]; [|reflexivity].
    destruct (Str.is_empty html); reflexivity.
  - unfold Eff.exec.
    destruct (acceptedDocument P json) as [m|] eqn:Ha.
    + rewrite (import_accepted P json now uuid w m Ha). simpl.
      unfold App.prependIfNew.
      rewrite idExists_idInUse, importedCreation_id.
      destruct (idInUse (history w) _); reflexivity.
    + destruct (import_refused P json now uuid w Ha) as [msg [Hrun _]].
      rewrite Hrun. reflexivity.
Qed.

Lemma run_acceptedInserts es w :
  history (run P es w) = reverse (acceptedInserts P es w) ++ history w.
Proof.
  revert w. induction es as [|e es IH]; intros w; simpl; [reflexivity|].
  rewrite IH, event_history.
  destruct (acceptedInsert P e w) as [c|]; [|reflexivity].
  rewrite reverse_cons, <- app_assoc. reflexivity.
Qed.

(** C6: every event puts its accepted insert, if it has one, in front of
    the collection, and changes nothing of the collection otherwise.  So a
    generation that succeeded puts its new creation in front, and so does
    the import of an accepted document whose id is not in the collection.
    After any sequence of events the collection is the accepted inserts, the
    last one first, followed by the initial collection: the insert accepted
    as number [k] stands [k] places before the end of the inserted ones. *)
Theorem inserts_are_most_recent_first es w :
  (forall e w0,
     history (App.dispatch P (handle P e) w0) =
     match acceptedInsert P e w0 with
     | Some c => c :: history w0
     | None => history w0
     end)
  /\ (forall promptText file now uuid w0 imageBase64 mimeType html,
        App.encodeFile file = Return (imageBase64, mimeType) ->
        Gemini.bringToLife (generateContent P) promptText imageBase64
          mimeType (lang w0) = Return html ->
        Str.is_empty html = false ->
        history (App.dispatch P
                   (App.handleGenerate P promptText file now uuid) w0)
        = App.newCreation uuid (App.creationName (lang w0) promptText file)
            html imageBase64 mimeType now
          :: history w0)
  /\ (forall json now uuid w0 m,
        acceptedDocument P json = Some m ->
        idInUse (history w0) (JS.or_else (JS.field m "id") (VStr uuid))
        = false ->
        history (App.dispatch P (App.importOnload P json now uuid) w0)
        = importedCreation P m now uuid :: history w0)
  /\ history (run P es w) = reverse (acceptedInserts P es w) ++ history w
  /\ (forall k c,
        acceptedInserts P es w !! k = Some c ->
        history (run P es w) !! (length (acceptedInserts P es w) - S k)%nat
        = Some c).
Proof.
  split; [apply event_history|].
  split.
  { intros promptText file now uuid w0 b m html Henc Hb Hne.
    pose proof (event_history (Submit promptText file now uuid) w0) as H.
    simpl in H. rewrite Henc, Hb, Hne in H. exact H. }
  split.
  { intros json now uuid w0 m Ha Hid.
    pose proof (event_history (Import json now uuid) w0) as H.
    simpl in H. rewrite Ha, Hid in H. exact H. }
  split; [apply run_acceptedInserts|].
  intros k c Hk. rewrite run_acceptedInserts.
  pose proof (lookup_lt_Some _ _ _ Hk) as Hlt.
  rewrite lookup_app_l by (rewrite length_reverse; lia).
  rewrite reverse_lookup by lia.
  replace (length (acceptedInserts P es w)
           - S (length (acceptedInserts P es w) - S k))%nat
    with k by lia.
  exact Hk.
Qed.

End InsertClaims.

(** ** Unique ids *)

Section UniqueIds.
Variable P : Platform.


Lemma uniqueIds_prepend c prev :
  uniqueIds prev = true ->
  App.idExists prev c = false ->
  uniqueIds (applyUpdate (App.prepend c prev) prev) = true.
Proof. intros H Hex. simpl. rewrite Hex, H. reflexivity. Qed.




End UniqueIds.

(** ** What reaches the archive *)

Section PersistClaims.
Variable P : Platform.

(** No handler writes the archive. *)
Lemma handler_localStorage e w :
  localStorage (Eff.exec (handle P e) w) = localStorage w.
Proof.
  destruct e as [promptText file now uuid|json now uuid| |c]; simpl.
  - rewrite handleGenerate_exec.
    destruct (App.encodeFile file) as [[b m]|e]; [|reflexivity].
    destruct (Gemini.bringToLife _ _ _ _ _) as [html|e]; [|reflexivity].
    destruct (Str.is_empty html); reflexivity.
  - unfold Eff.exec. rewrite importOnload_run. simpl.
    destruct (JSON_parse P json) as [parsed|e]; [|reflexivity].
    destruct parsed as [| |b|n|s|t|l|m]; try reflexivity.
    destruct (_ && _); [|reflexivity].
    destruct (JS.to_primitive_throws _); reflexivity.
  - reflexivity.
  - reflexivity.
Qed.

(** After an event and its render the archive is what it was, or the
    collection is not empty and its text was written under the history key. *)
Lemma dispatch_localStorage e w :
  let w' := App.dispatch P (handle P e) w in
  localStorage w' = localStorage w
  \/ (history w' <> []
      /\ localStorage w' =
         <[App.HISTORY_KEY :=
             JSON_stringify P (App.historyValue (history w')) 0]>
           (localStorage w)).
Proof.
  intros w'. unfold w'.
  rewrite (dispatch_returns P _ _ _ (handler_returns P e w)).
  rewrite render_history, render_localStorage, handler_localStorage.
  destruct (historyChanged _); simpl; [|left; reflexivity].
  destruct (history (Eff.exec (handle P e) w)) as [|c h] eqn:Hh; simpl;
    [left; reflexivity|].
  destruct (quota_exceeded P _ _ _); simpl; [left; reflexivity|].
  right. split; [discriminate | reflexivity].
Qed.

(** C10: the saving effect leaves the archive alone when the collection is
    empty; when it changes the archive, the collection is not empty and the
    archive holds its text under the history key.  The same holds of a
    render, of the first render with its loading, and of every event with
    its render. *)
Theorem persist_only_nonempty w now uuid storage e :
  let w' := Eff.exec (App.persistEffect P) w in
  (history w = [] -> w' = w)
  /\ (w' = w
      \/ (history w <> []
          /\ localStorage w' =
             <[App.HISTORY_KEY :=
                 JSON_stringify P (App.historyValue (history w)) 0]>
               (localStorage w)))
  /\ (history w = [] ->
      localStorage (Eff.exec (App.render P) w) = localStorage w)
  /\ Eff.exec (App.persistEffect P) (App.initial storage) = App.initial storage
  /\ (history (App.mount P now uuid storage) = [] ->
      localStorage (App.mount P now uuid storage) = storage)
  /\ (localStorage (App.dispatch P (handle P e) w) = localStorage w
      \/ (history (App.dispatch P (handle P e) w) <> []
          /\ localStorage (App.dispatch P (handle P e) w) =
             <[App.HISTORY_KEY :=
                 JSON_stringify P
                   (App.historyValue
                      (history (App.dispatch P (handle P e) w))) 0]>
               (localStorage w))).
Proof.
  intros w'. unfold w', Eff.exec at 1 2 3. rewrite !persistEffect_run. simpl.
  split; [|split; [|split; [|split; [|split]]]].
  - intros H. rewrite H. reflexivity.
  - destruct (history w) as [|c h]; simpl; [left; reflexivity|].
    destruct (quota_exceeded P _ _ _); simpl; [left; reflexivity|].
    right. split; [discriminate | reflexivity].
  - intros H. rewrite render_localStorage, H. simpl.
    rewrite andb_false_r. reflexivity.
  - unfold Eff.exec. rewrite persistEffect_run. reflexivity.
  - rewrite mount_run, render_history, render_localStorage.
    intros H. rewrite H. simpl. rewrite andb_false_r.
    rewrite initHistory_run. simpl.
    destruct (0 <? _)%nat; [reflexivity|].
    destruct (seedResults P now uuid); reflexivity.
  - apply dispatch_localStorage.
Qed.

End PersistClaims.

(** ** Export followed by import *)

Section ExportImport.
Variable P : Platform.

Lemma to_json_object (c : Creation) :
  Json.to_json P (VObj c) = Some (VObj (omap (Json.to_json P) c)).
Proof. reflexivity. Qed.

Lemma field_to_json (c : Creation) k :
  JS.field (omap (Json.to_json P) c) k =
  default VUndefined (c !! k ≫= Json.to_json P).
Proof. unfold JS.field. rewrite lookup_omap. reflexivity. Qed.

Lemma field_to_json_string (c : Creation) k s :
  JS.field c k = VStr s -> JS.field (omap (Json.to_json P) c) k = VStr s.
Proof.
  rewrite field_to_json. unfold JS.field.
  destruct (c !! k) as [v|]; simpl; [|discriminate].
  intros ->. reflexivity.
Qed.

Lemma field_to_json_undefined (c : Creation) k :
  JS.field c k = VUndefined ->
  JS.field (omap (Json.to_json P) c) k = VUndefined.
Proof.
  rewrite field_to_json. unfold JS.field.
  destruct (c !! k) as [v|]; simpl; [|reflexivity].
  intros ->. reflexivity.
Qed.

Lemma truthy_string s : s <> EmptyString -> JS.truthy (VStr s) = true.
Proof. destruct s; [congruence | reflexivity]. Qed.

(** What [JSON.stringify] writes for a value that converts to a primitive
    is read back as a value that converts. *)
Lemma to_json_converts (v : value) :
  JS.to_primitive_throws v = false ->
  JS.to_primitive_throws (default VNull (Json.to_json P v)) = false.
Proof.
  revert v. fix IH 1. intros [| |b|n|s|t|l|m] H; try reflexivity.
  - destruct t; reflexivity.
  - simpl in *. induction l as [|x l IHl]; [reflexivity|].
    simpl in *. apply orb_false_iff in H as [Hx Hl].
    rewrite (IH x Hx), (IHl Hl). reflexivity.
  - simpl in *. rewrite lookup_omap.
    destruct (m !! "toString"); [discriminate | reflexivity].
Qed.

Lemma field_to_json_converts (c : Creation) k :
  JS.to_primitive_throws (JS.field c k) = false ->
  JS.to_primitive_throws (JS.field (omap (Json.to_json P) c) k) = false.
Proof.
  rewrite field_to_json. unfold JS.field.
  destruct (c !! k) as [v|]; simpl; [|reflexivity].
  intros H. pose proof (to_json_converts v H) as Hc.
  destruct (Json.to_json P v); [exact Hc | reflexivity].
Qed.

(** C8, as amended: for a creation whose name and document are strings that
    are not empty and whose timestamp is not an object or an array on which
    [new Date] throws (each creation that the code makes has a date there),
    on a platform whose [JSON.parse] reads back what [JSON.stringify] wrote
    for it, the export gives a file whose import
    displays a creation with the same document and name; its id is the
    original one when that is a string that is not empty, and a new
    identifier when it is missing or empty; its timestamp is the original
    one when that is a valid date whose ISO text [Date.parse] reads back, and
    the current time when it is an invalid date or missing. *)
Theorem export_import_roundtrip (c : Creation) name html w now uuid :
  JS.field c "name" = VStr name -> name <> EmptyString ->
  JS.field c "html" = VStr html -> html <> EmptyString ->
  JS.to_primitive_throws (JS.field c "timestamp") = false ->
  JSON_parse P (JSON_stringify P (VObj c) 2)
    = Return (VObj (omap (Json.to_json P) c)) ->
  exists d c',
    LivePreview.handleExport P (Some c) = Return (Some d)
    /\ LivePreview.content d = JSON_stringify P (VObj c) 2
    /\ activeCreation
         (App.dispatch P (App.importOnload P (LivePreview.content d) now uuid) w)
       = Some c'
    /\ alerts (Eff.exec (App.importOnload P (LivePreview.content d) now uuid) w)
       = alerts w
    /\ JS.field c' "html" = VStr html
    /\ JS.field c' "name" = VStr name
    /\ (forall i, JS.field c "id" = VStr i -> i <> EmptyString ->
                  JS.field c' "id" = VStr i)
    /\ (JS.field c "id" = VUndefined \/ JS.field c "id" = VStr EmptyString ->
        JS.field c' "id" = VStr uuid)
    /\ (forall t, JS.field c "timestamp" = VDate (Some t) ->
                  toISOString P t <> EmptyString ->
                  Date_parse P (toISOString P t) = Some t ->
                  JS.field c' "timestamp" = VDate (Some t))
    /\ (JS.field c "timestamp" = VDate None
        \/ JS.field c "timestamp" = VUndefined ->
        JS.field c' "timestamp" = VDate (JS.time_clip now)).
Proof.
  intros Hname Hne Hhtml Hhe Hts Hrt.
  set (j := omap (Json.to_json P) c).
  assert (Hjt : JS.to_primitive_throws (JS.field j "timestamp") = false)
    by (apply field_to_json_converts, Hts).
  assert (Hjh : JS.field j "html" = VStr html)
    by (apply field_to_json_string, Hhtml).
  assert (Hjn : JS.field j "name" = VStr name)
    by (apply field_to_json_string, Hname).
  eexists. eexists. split.
  { unfold LivePreview.handleExport. rewrite Hname. reflexivity. }
  simpl. split; [reflexivity|].
  pose proof (importOnload_run P w (JSON_stringify P (VObj c) 2) now uuid)
    as Hrun.
  rewrite Hrt in Hrun. fold j in Hrun.
  rewrite Hjh, Hjn, Hjt, !truthy_string in Hrun by assumption.
  simpl in Hrun.
  rewrite (dispatch_returns P _ _ _ Hrun), render_activeCreation.
  unfold Eff.exec. rewrite Hrun. simpl.
  split; [reflexivity|]. split; [reflexivity|].
  unfold importedCreation.
  rewrite !field_insert_eq.
  rewrite !(field_insert_ne _ "id") by discriminate.
  rewrite !(field_insert_ne _ "timestamp") by discriminate.
  rewrite !field_insert_eq.
  split; [exact Hjh|]. split; [exact Hjn|].
  split; [|split; [|split]].
  - intros i Hi Hie. unfold j.
    rewrite (field_to_json_string _ _ _ Hi).
    unfold JS.or_else. rewrite truthy_string by assumption. reflexivity.
  - intros [Hi|Hi]; unfold j.
    + rewrite (field_to_json_undefined _ _ Hi). reflexivity.
    + rewrite (field_to_json_string _ _ _ Hi). reflexivity.
  - intros t Ht Hiso Hdp. unfold j. rewrite field_to_json.
    unfold JS.field in Ht. destruct (c !! "timestamp") as [v|]; [|discriminate].
    simpl in Ht. subst v. simpl.
    unfold JS.or_else. rewrite truthy_string by assumption. simpl.
    rewrite Hdp. reflexivity.
  - intros [Ht|Ht]; unfold j.
    + rewrite field_to_json.
      unfold JS.field in Ht. destruct (c !! "timestamp") as [v|]; [|discriminate].
      simpl in Ht. subst v. reflexivity.
    + rewrite (field_to_json_undefined _ _ Ht). reflexivity.
Qed.

End ExportImport.

(** ** The claims on concrete inputs *)

Section Concrete.
Import Scenario.

Ltac evaluate :=
  repeat match goal with |- _ /\ _ => split end; vm_compute; reflexivity.

(** C1, the claim as stated fails: the model answers nothing (or the empty
    text), [bringToLife] returns the placeholder document instead of failing,
    and the orchestrator stores a creation made of it, with no notice. *)
Lemma empty_result_is_returned_and_stored :
  Gemini.bringToLife silentModel "a chess clock" None None Gemini.en
    = Return Gemini.PLACEHOLDER
  /\ Gemini.bringToLife emptyModel "a chess clock" None None Gemini.en
     = Return Gemini.PLACEHOLDER
  /\ history (App.dispatch (reference silentModel served)
                (App.handleGenerate (reference silentModel served)
                   "a chess clock" None NOW UUID)
                (App.initial ∅))
     = [App.newCreation UUID "a chess clock" Gemini.PLACEHOLDER None None NOW]
  /\ alerts (App.dispatch (reference silentModel served)
               (App.handleGenerate (reference silentModel served)
                  "a chess clock" None NOW UUID)
               (App.initial ∅))
     = [].
Proof. evaluate. Qed.

(** C1, as amended, on a model that answers nothing. *)
Lemma empty_result_yields_placeholder_creation_witness :
  Eff.exec (App.handleGenerate (reference silentModel served)
              "a chess clock" None NOW UUID) (App.initial ∅)
  = generationSucceeded
      (App.newCreation UUID "a chess clock" Gemini.PLACEHOLDER None None NOW)
      (App.initial ∅).
Proof.
  exact (proj1 (proj2 (empty_result_yields_placeholder_creation
                         (reference silentModel served) (App.initial ∅)
                         "a chess clock" None NOW UUID None None None
                         eq_refl eq_refl eq_refl))).
Defined.

(** C9 on a model that rejects, with an archive that holds one creation. *)
Lemma failed_generation_returns_to_idle_witness :
  App.dispatch (reference failingModel served)
    (App.handleGenerate (reference failingModel served)
       "a chess clock" None NOW UUID) (App.initial savedArchive)
  = generationFailed (App.initial savedArchive).
Proof.
  exact (proj1 (failed_generation_returns_to_idle
                  (reference failingModel served) (App.initial savedArchive)
                  "a chess clock" None NOW UUID None None
                  eq_refl eq_refl eq_refl)).
Defined.

(** C3, the claim as stated fails: the archive holds the text of the empty
    collection, which parses, and the three examples are requested and
    become the collection. *)
Lemma empty_persisted_collection_fetches_examples :
  emptyArchive !! App.HISTORY_KEY = Some "[]"
  /\ Reference.JSON_parse "[]" = Return (VArr [])
  /\ fetched (App.mount (reference silentModel served) NOW seedUuid
                emptyArchive)
     = App.exampleUrls
  /\ map (fun c => JS.field c "id")
       (history (App.mount (reference silentModel served) NOW seedUuid
                   emptyArchive))
     = map VStr App.exampleUrls.
Proof. evaluate. Qed.

(** C3, as amended, on an archive that holds one creation. *)
Lemma persisted_history_takes_precedence_when_nonempty_witness :
  history (App.mount (reference silentModel served) NOW seedUuid savedArchive)
    = [savedCreation]
  /\ fetched (App.mount (reference silentModel served) NOW seedUuid
                savedArchive)
     = [].
Proof.
  apply (persisted_history_takes_precedence_when_nonempty
           (reference silentModel served) NOW seedUuid savedArchive
           savedText (VArr [VObj savedItem]) [savedCreation]).
  - vm_compute. reflexivity.
  - vm_compute. reflexivity.
  - vm_compute. reflexivity.
  - vm_compute. reflexivity.
  - discriminate.
Defined.

(** C4, at the failing input: with no archive, when the first example
    request is rejected, or its body cannot be read, the two other examples
    are requested and served and yet nothing is seeded; a first response that
    is not ok is the case the code tolerates, and the two others are seeded. *)
Theorem rejected_fetch_aborts_seeding :
  fetched (App.mount (reference silentModel firstRejected) NOW seedUuid ∅)
    = App.exampleUrls
  /\ history (App.mount (reference silentModel firstRejected) NOW seedUuid ∅)
     = []
  /\ history (App.mount (reference silentModel firstUnreadable) NOW seedUuid ∅)
     = []
  /\ map (fun c => JS.field c "id")
       (history (App.mount (reference silentModel firstNotOk) NOW seedUuid ∅))
     = map VStr (tail App.exampleUrls).
Proof. evaluate. Qed.




(** C8, the claim as stated fails: a creation whose document is empty, here
    one that seeding put in the collection, is exported; the text of the file
    parses back to the creation as written, and its import is refused with
    the notice of an invalid format. *)
Lemma export_import_rejects_empty_document :
  history (App.mount (reference silentModel servedBlank) NOW seedUuid ∅) !! 0%nat
    = Some blank
  /\ JS.field blank "html" = VStr EmptyString
  /\ LivePreview.handleExport (reference silentModel servedBlank) (Some blank)
     = Return (Some {| LivePreview.filename := "draft_artifact.json";
                       LivePreview.content :=
                         Reference.JSON_stringify (VObj blank) 2 |})
  /\ Reference.JSON_parse (Reference.JSON_stringify (VObj blank) 2)
     = Return (VObj (omap (Json.to_json (reference silentModel servedBlank))
                       blank))
  /\ Eff.exec (App.importOnload (reference silentModel servedBlank)
                 (Reference.JSON_stringify (VObj blank) 2) NOW UUID2)
       (App.initial ∅)
     = notified (App.INVALID_FORMAT Gemini.en) (App.initial ∅).
Proof. evaluate. Qed.

(** C8, as amended, on a generated creation: the import happens later, at
    time 5 of another clock, and keeps the id and the timestamp. *)
Lemma export_import_roundtrip_witness :
  exists d c',
    LivePreview.handleExport (reference silentModel served) (Some clock)
      = Return (Some d)
    /\ activeCreation
         (App.dispatch (reference silentModel served)
            (App.importOnload (reference silentModel served)
               (LivePreview.content d) 5 UUID2) (App.initial ∅))
       = Some c'
    /\ JS.field c' "html" = VStr "<!DOCTYPE html><p>clock</p>"
    /\ JS.field c' "name" = VStr "a chess clock"
    /\ JS.field c' "id" = VStr UUID
    /\ JS.field c' "timestamp" = VDate (Some NOW).
Proof.
  destruct (export_import_roundtrip (reference silentModel served) clock
              "a chess clock" "<!DOCTYPE html><p>clock</p>"
              (App.initial ∅) 5 UUID2)
    as (d & c' & Hexp & _ & Hact & _ & Hhtml & Hname & Hid & _ & Hts & _).
  - vm_compute. reflexivity.
  - discriminate.
  - vm_compute. reflexivity.
  - discriminate.
  - vm_compute. reflexivity.
  - vm_compute. reflexivity.
  - exists d, c'. split; [exact Hexp|]. split; [exact Hact|].
    split; [exact Hhtml|]. split; [exact Hname|].
    split.
    + apply Hid; [vm_compute; reflexivity | discriminate].
    + apply Hts; [vm_compute; reflexivity | vm_compute; discriminate
                 | vm_compute; reflexivity].
Defined.

(** C6 on a generation, an import whose id is in use, a reset and an import
    without id: the collection holds the last import, then the generation. *)
Lemma inserts_are_most_recent_first_witness :
  map (fun c => JS.field c "id")
    (history (run (reference answeringModel served)
                [Submit "a chess clock" None NOW UUID;
                 Import importedText NOW UUID2;
                 Reset;
                 Import plainText NOW UUID2] (App.initial ∅)))
  = [VStr UUID2; VStr UUID].
Proof.
  rewrite (proj1 (proj2 (proj2 (proj2
             (inserts_are_most_recent_first
                (reference answeringModel served)
                [Submit "a chess clock" None NOW UUID;
                 Import importedText NOW UUID2;
                 Reset;
                 Import plainText NOW UUID2] (App.initial ∅)))))).
  vm_compute. reflexivity.
Defined.


(** A timestamp on which [new Date] throws: the import of the document
    fails with the notice of a failed import and stores nothing; an archive
    that holds the document is not loaded, and the examples are requested;
    examples that hold it are requested and none is seeded. *)
Lemma unconvertible_timestamp_throws :
  Eff.exec (App.importOnload (reference silentModel served)
              unconvertibleText NOW UUID) (App.initial ∅)
    = notified (App.IMPORT_FAILED Gemini.en) (App.initial ∅)
  /\ acceptedDocument (reference silentModel served) unconvertibleText = None
  /\ App.loadedHistory (reference silentModel served)
       (unconvertibleArchive !! App.HISTORY_KEY) = []
  /\ fetched (App.mount (reference silentModel served) NOW seedUuid
                unconvertibleArchive)
     = App.exampleUrls
  /\ fetched (App.mount (reference silentModel servedUnconvertible) NOW
                seedUuid ∅)
     = App.exampleUrls
  /\ history (App.mount (reference silentModel servedUnconvertible) NOW
                seedUuid ∅)
     = [].
Proof. evaluate. Qed.

(** C10 on the first render with an archive that holds one creation: the
    saving effect leaves it alone. *)
Lemma persist_only_nonempty_witness :
  Eff.exec (App.persistEffect (reference silentModel served))
    (App.initial savedArchive)
  = App.initial savedArchive.
Proof.
  exact (proj1 (persist_only_nonempty (reference silentModel served)
                  (App.initial savedArchive) NOW seedUuid savedArchive Reset)
           eq_refl).
Defined.

End Concrete.

(** * Further properties of the code *)

(** ** Strings *)

Lemma append_cons c (a b : string) : String c a +:+ b = String c (a +:+ b).
Proof. reflexivity. Qed.

Lemma append_nil_r (s : string) : s +:+ EmptyString = s.
Proof.
  induction s as [|c s IH]; [reflexivity|]. rewrite append_cons, IH. reflexivity.
Qed.

Lemma length_append (a b : string) :
  String.length (a +:+ b) = (String.length a + String.length b)%nat.
Proof.
  induction a as [|c a IH]; [reflexivity|].
  rewrite append_cons. simpl. rewrite IH. reflexivity.
Qed.

Lemma rev_app_append (s acc : string) :
  String.rev_app s acc = String.rev s +:+ acc.
Proof.
  unfold String.rev. revert acc.
  induction s as [|c s IH]; intros acc; simpl; [reflexivity|].
  rewrite IH, (IH (String c EmptyString)), append_assoc. reflexivity.
Qed.

Lemma string_rev_cons c (s : string) :
  String.rev (String c s) = String.rev s +:+ String c EmptyString.
Proof. unfold String.rev at 1. simpl. apply rev_app_append. Qed.

Lemma string_rev_append (a b : string) :
  String.rev (a +:+ b) = String.rev b +:+ String.rev a.
Proof.
  induction a as [|c a IH].
  - change (EmptyString +:+ b) with b. rewrite append_nil_r. reflexivity.
  - rewrite append_cons, !string_rev_cons, IH, append_assoc. reflexivity.
Qed.

Lemma string_rev_involutive (s : string) : String.rev (String.rev s) = s.
Proof.
  induction s as [|c s IH]; [reflexivity|].
  rewrite string_rev_cons, string_rev_append, IH. reflexivity.
Qed.

Lemma strip_prefix_cons c (p : string) d (s : string) :
  Str.strip_prefix (String c p) (String d s) =
  if Ascii.eqb c d then Str.strip_prefix p s else None.
Proof. reflexivity. Qed.

Lemma strip_prefix_app (p s : string) : Str.strip_prefix p (p +:+ s) = Some s.
Proof.
  induction p as [|c p IH]; [destruct s; reflexivity|].
  rewrite append_cons. simpl. rewrite Ascii.eqb_refl. exact IH.
Qed.

Lemma strip_prefix_Some (p s r : string) :
  Str.strip_prefix p s = Some r -> s = p +:+ r.
Proof.
  revert s. induction p as [|c p IH]; intros s H.
  - destruct s; simpl in H; injection H as <-; reflexivity.
  - destruct s as [|d s]; simpl in H; [discriminate|].
    destruct (Ascii.eqb_spec c d) as [<-|]; [|discriminate].
    rewrite append_cons, <- (IH _ H). reflexivity.
Qed.

Lemma strip_prefix_longer (p q s : string) :
  Str.strip_prefix p s = None -> Str.strip_prefix (p +:+ q) s = None.
Proof.
  revert s. induction p as [|c p IH]; intros s H.
  - destruct s; discriminate.
  - rewrite append_cons. destruct s as [|d s]; simpl in *; [reflexivity|].
    destruct (Ascii.eqb c d); [apply IH, H | reflexivity].
Qed.

Lemma drop_spaces_split (s : string) :
  exists p, s = p +:+ Str.drop_spaces s /\ all_spaces p = true.
Proof.
  induction s as [|c s [p [Hs Hp]]].
  - exists EmptyString. split; reflexivity.
  - simpl. destruct (Str.js_space c) eqn:Hc.
    + exists (String c p). rewrite append_cons, <- Hs. simpl. rewrite Hc, Hp.
      split; reflexivity.
    + exists EmptyString. split; reflexivity.
Qed.

Lemma drop_spaces_no_leading (s : string) :
  no_leading_space (Str.drop_spaces s) = true.
Proof.
  induction s as [|c s IH]; [reflexivity|]. simpl.
  destruct (Str.js_space c) eqn:Hc; [exact IH|]. simpl. rewrite Hc. reflexivity.
Qed.

Lemma drop_spaces_id (s : string) :
  no_leading_space s = true -> Str.drop_spaces s = s.
Proof.
  destruct s as [|c s]; [reflexivity|]. simpl.
  destruct (Str.js_space c); [discriminate | reflexivity].
Qed.

Lemma drop_spaces_app (p s : string) :
  all_spaces p = true -> Str.drop_spaces (p +:+ s) = Str.drop_spaces s.
Proof.
  induction p as [|c p IH]; [reflexivity|]. rewrite append_cons. simpl.
  destruct (Str.js_space c); [exact IH | discriminate].
Qed.

Lemma remove_prefix_and_spaces_split (p s : string) :
  exists pre, s = pre +:+ Str.remove_prefix_and_spaces p s.
Proof.
  unfold Str.remove_prefix_and_spaces.
  destruct (Str.strip_prefix p s) as [r|] eqn:H.
  - destruct (drop_spaces_split r) as [q [Hr _]].
    exists (p +:+ q). rewrite append_assoc, <- Hr. apply strip_prefix_Some, H.
  - exists EmptyString. reflexivity.
Qed.

Lemma remove_suffix_split (p s : string) :
  s = Str.remove_suffix p s
  \/ s = Str.remove_suffix p s +:+ p.
Proof.
  unfold Str.remove_suffix.
  destruct (Str.strip_prefix (String.rev p) (String.rev s)) as [r|] eqn:H;
    [right | left; reflexivity].
  apply strip_prefix_Some in H.
  rewrite <- (string_rev_involutive s), H, string_rev_append, string_rev_involutive. reflexivity.
Qed.

Lemma remove_suffix_app (p s : string) : Str.remove_suffix p (s +:+ p) = s.
Proof.
  unfold Str.remove_suffix. rewrite string_rev_append, strip_prefix_app.
  apply string_rev_involutive.
Qed.

(** ** Removing the fences of an answer (gemini.ts, line 90) *)

(** X1: the replacements only remove text at the two ends of the answer:
    the result stands in the answer as it is, before nothing or one closing
    fence. *)
Theorem stripFences_only_trims (text : string) :
  exists before after,
    text = before +:+ Gemini.stripFences text +:+ after
    /\ (after = EmptyString \/ after = "```").
Proof.
  unfold Gemini.stripFences.
  destruct (remove_prefix_and_spaces_split "```html" text) as [p1 H1].
  set (t1 := Str.remove_prefix_and_spaces "```html" text) in *.
  destruct (remove_prefix_and_spaces_split "```" t1) as [p2 H2].
  set (t2 := Str.remove_prefix_and_spaces "```" t1) in *.
  destruct (remove_suffix_split "```" t2) as [H3|H3].
  - exists (p1 +:+ p2), EmptyString. split; [|left; reflexivity].
    rewrite append_nil_r, <- H3, append_assoc, <- H2. exact H1.
  - exists (p1 +:+ p2), "```". split; [|right; reflexivity].
    rewrite <- H3, append_assoc, <- H2. exact H1.
Qed.

(** X2: an answer that is a document between an opening fence [```html],
    white space, and a closing fence at its very end comes out as the
    document, when the document starts with a character that is neither
    white space nor a backtick; so does one whose opening fence is [```]
    followed by white space. *)
Theorem stripFences_unwraps_fenced_document (ws : string) c (body : string) :
  all_spaces ws = true ->
  Str.js_space c = false ->
  c <> "`"%char ->
  Gemini.stripFences ("```html" +:+ ws +:+ String c body +:+ "```")
    = String c body
  /\ (ws <> EmptyString ->
      Gemini.stripFences ("```" +:+ ws +:+ String c body +:+ "```")
      = String c body).
Proof.
  intros Hws Hc Hb.
  assert (Hdrop : Str.drop_spaces (ws +:+ String c body +:+ "```")
                  = String c body +:+ "```").
  { rewrite drop_spaces_app by exact Hws. rewrite append_cons. simpl.
    rewrite Hc. reflexivity. }
  assert (Hno : Str.strip_prefix "```" (String c body +:+ "```") = None).
  { rewrite append_cons.
    change "```" with (String "`"%char "``"). rewrite strip_prefix_cons.
    destruct (Ascii.eqb_spec "`"%char c) as [E|]; [congruence | reflexivity]. }
  split.
  - unfold Gemini.stripFences, Str.remove_prefix_and_spaces at 2.
    rewrite strip_prefix_app, Hdrop.
    unfold Str.remove_prefix_and_spaces. rewrite Hno.
    apply remove_suffix_app.
  - intros Hne. destruct ws as [|w ws]; [congruence|].
    simpl in Hws. apply andb_true_iff in Hws as [Hw Hws'].
    unfold Gemini.stripFences, Str.remove_prefix_and_spaces at 2.
    assert (H1 : Str.strip_prefix "```html"
                   ("```" +:+ String w ws +:+ String c body +:+ "```") = None).
    { change ("```" +:+ String w ws +:+ String c body +:+ "```")
        with (String "`" (String "`" (String "`"
                (String w (ws +:+ String c body +:+ "```"))))).
      change "```html" with (String "`" (String "`" (String "`"
                               (String "h" "tml")))).
      rewrite !strip_prefix_cons, !Ascii.eqb_refl.
      destruct (Ascii.eqb_spec "h"%char w) as [<-|]; [discriminate | reflexivity]. }
    rewrite H1. unfold Str.remove_prefix_and_spaces at 1.
    rewrite strip_prefix_app.
    assert (H2 : Str.drop_spaces (String w ws +:+ String c body +:+ "```")
                 = String c body +:+ "```").
    { rewrite drop_spaces_app; [|simpl; rewrite Hw, Hws'; reflexivity].
      rewrite append_cons. simpl. rewrite Hc. reflexivity. }
    rewrite H2. apply remove_suffix_app.
Qed.

(** X3: an answer that neither starts nor ends with three backticks is
    returned as it is. *)
Theorem stripFences_keeps_unfenced_answer (text : string) :
  Str.starts_with "```" text = false ->
  Str.starts_with "```" (String.rev text) = false ->
  Gemini.stripFences text = text.
Proof.
  unfold Str.starts_with. intros H1 H2.
  destruct (Str.strip_prefix "```" text) eqn:Hp; [discriminate|].
  destruct (Str.strip_prefix "```" (String.rev text)) eqn:Hs; [discriminate|].
  unfold Gemini.stripFences, Str.remove_prefix_and_spaces.
  change "```html" with ("```" +:+ "html").
  rewrite (strip_prefix_longer _ _ _ Hp), Hp.
  unfold Str.remove_suffix. change (String.rev "```") with "```".
  rewrite Hs. reflexivity.
Qed.

(** ** The parts of the request (gemini.ts, lines 45-73) *)

(** X4: the request is the instruction text alone, when the payload or the
    media type is missing or empty, or the instruction text followed by the
    payload with its media type; in the second case the instruction text
    starts with the directive that tells the model to analyse the file. *)
Theorem requestParts_inline_data_comes_with_directive prompt f m l :
  match Gemini.requestParts prompt f m l with
  | [Gemini.TextPart t] =>
      t = Gemini.finalPrompt prompt f l
      /\ Gemini.truthy_opt f && Gemini.truthy_opt m = false
  | [Gemini.TextPart t; Gemini.InlineData d mt] =>
      t = Gemini.finalPrompt prompt f l
      /\ f = Some d /\ m = Some mt
      /\ Str.is_empty d = false /\ Str.is_empty mt = false
      /\ Str.starts_with Gemini.FILE_DIRECTIVE t = true
  | _ => False
  end.
Proof.
  unfold Gemini.requestParts.
  destruct f as [d|], m as [mt|]; simpl;
    try (split; [reflexivity|]; rewrite ?andb_false_r; reflexivity).
  destruct (Str.is_empty d) eqn:Hd; simpl; [split; reflexivity|].
  destruct (Str.is_empty mt) eqn:Hm; simpl; [split; reflexivity|].
  split; [reflexivity|]. split; [reflexivity|]. split; [reflexivity|].
  split; [exact Hd|]. split; [exact Hm|].
  apply finalPrompt_with_file. simpl. rewrite Hd. reflexivity.
Qed.

(** ** The name of a creation (App.tsx, lines 185-193) *)

Lemma split_not_nil c (s : string) : Str.split c s <> [].
Proof.
  induction s as [|a s IH]; simpl; [discriminate|].
  destruct (Ascii.eqb a c); [discriminate|].
  destruct (Str.split c s); discriminate.
Qed.

Lemma join_cons_cons sep (w w' : string) ws :
  Str.join sep (w :: w' :: ws) = w +:+ sep +:+ Str.join sep (w' :: ws).
Proof. reflexivity. Qed.

Lemma join_head sep c (w : string) ws :
  Str.join sep (String c w :: ws) = String c (Str.join sep (w :: ws)).
Proof. destruct ws; reflexivity. Qed.

(** Joining what [split] made gives the text back. *)
Lemma join_split c (s : string) :
  Str.join (String c EmptyString) (Str.split c s) = s.
Proof.
  induction s as [|a s IH]; [reflexivity|]. simpl.
  destruct (Ascii.eqb_spec a c) as [->|Hne].
  - pose proof (split_not_nil c s) as Hnn.
    destruct (Str.split c s) as [|w ws]; [congruence|].
    rewrite join_cons_cons, IH. reflexivity.
  - pose proof (split_not_nil c s) as Hnn.
    destruct (Str.split c s) as [|w ws]; [congruence|].
    rewrite join_head, IH. reflexivity.
Qed.

Lemma length_str_take_le n (s : string) : (String.length (Str.take n s) <= n)%nat.
Proof.
  revert s. induction n as [|n IH]; intros s; [simpl; lia|].
  destruct s as [|c s]; simpl; [lia|]. specialize (IH s). lia.
Qed.

Lemma length_str_take n (s : string) :
  (n <= String.length s)%nat -> String.length (Str.take n s) = n.
Proof.
  revert s. induction n as [|n IH]; intros s H; [reflexivity|].
  destruct s as [|c s]; simpl in *; [lia|]. rewrite IH; lia.
Qed.

Lemma join_first_words_not_empty (s : string) :
  Str.is_empty s = false ->
  Str.is_empty (Str.join " " (take 4 (Str.split " " s))) = false.
Proof.
  destruct s as [|a s]; [discriminate|]. intros _. simpl.
  pose proof (split_not_nil " " s) as Hnn.
  destruct (Ascii.eqb a " ").
  - destruct (Str.split " " s) as [|w ws]; [congruence|]. reflexivity.
  - destruct (Str.split " " s) as [|w ws]; [congruence|].
    simpl. destruct (take 3 ws); reflexivity.
Qed.

Lemma is_empty_length (s : string) :
  Str.is_empty s = false <-> (0 < String.length s)%nat.
Proof. destruct s; simpl; split; intros; try lia; try discriminate; reflexivity. Qed.

(** X5: the name made from the text of a prompt is never empty and never
    longer than 30 code units. *)
Theorem prompt_name_is_short_and_not_empty l promptText :
  Str.is_empty promptText = false ->
  (0 < String.length (App.creationName l promptText None) <= 30)%nat.
Proof.
  intros H. unfold App.creationName. rewrite H.
  set (name := Str.join " " (take 4 (Str.split " " promptText)) +:+ _).
  assert (Hpos : (0 < String.length name)%nat).
  { unfold name. rewrite length_append.
    pose proof (proj1 (is_empty_length _) (join_first_words_not_empty _ H)).
    lia. }
  destruct (Nat.ltb_spec 30 (String.length name)) as [Hlong|Hshort].
  - rewrite length_append, length_str_take by lia. simpl. lia.
  - lia.
Qed.

(** X6: a prompt of at most four words and at most 30 code units is the name
    of its creation, as it was typed. *)
Theorem short_prompt_is_its_own_name l promptText :
  Str.is_empty promptText = false ->
  (length (Str.split " " promptText) <= 4)%nat ->
  (String.length promptText <= 30)%nat ->
  App.creationName l promptText None = promptText.
Proof.
  intros He Hw Hl. unfold App.creationName. rewrite He.
  rewrite take_ge by exact Hw.
  destruct (Nat.ltb_spec 4 (length (Str.split " " promptText))); [lia|].
  rewrite append_nil_r, (join_split " " promptText).
  destruct (Nat.ltb_spec 30 (String.length promptText)); [lia | reflexivity].
Qed.

(** ** Encoding a file (App.tsx, lines 150-179) *)

Lemma split_no_separator c (s : string) :
  Str.includes (String c EmptyString) s = false ->
  Str.split c s = [s].
Proof.
  induction s as [|a s IH]; [reflexivity|]. simpl.
  unfold Str.starts_with. rewrite strip_prefix_cons.
  rewrite Ascii.eqb_sym.
  destruct (Ascii.eqb a c); simpl; [destruct s; discriminate|].
  intros H. rewrite (IH H). reflexivity.
Qed.

Lemma split_at_first_separator c (a b : string) :
  Str.includes (String c EmptyString) a = false ->
  Str.split c (a +:+ String c b) = a :: Str.split c b.
Proof.
  induction a as [|x a IH]; intros H.
  - change (EmptyString +:+ String c b) with (String c b). simpl.
    rewrite Ascii.eqb_refl. reflexivity.
  - rewrite append_cons. simpl in *.
    unfold Str.starts_with in H. rewrite strip_prefix_cons in H.
    rewrite Ascii.eqb_sym in H.
    destruct (Ascii.eqb x c); simpl in H; [destruct a; discriminate|].
    rewrite (IH H). reflexivity.
Qed.

(** X7: from a data URL, a header without comma, a comma and a payload
    without comma, [fileToBase64] delivers the payload; from a result
    without any comma it delivers undefined. *)
Theorem fileToBase64_delivers_the_payload f header payload :
  file_dataURL f = Return (Some (header +:+ "," +:+ payload)) ->
  Str.includes "," header = false ->
  Str.includes "," payload = false ->
  App.fileToBase64 f = Return (Some payload)
  /\ (forall f' url,
        file_dataURL f' = Return (Some url) ->
        Str.includes "," url = false ->
        App.fileToBase64 f' = Return None).
Proof.
  intros Hf Hh Hp. split.
  - unfold App.fileToBase64. rewrite Hf.
    change ("," +:+ payload) with (String "," payload).
    rewrite (split_at_first_separator "," _ _ Hh), (split_no_separator "," _ Hp).
    reflexivity.
  - intros f' url Hf' Hu. unfold App.fileToBase64. rewrite Hf'.
    rewrite (split_no_separator "," _ Hu). reflexivity.
Qed.

(** ** Generation attempts at the edges (App.tsx, lines 167-213) *)

Section GenerationEdges.
Variable P : Platform.

(** X8: a file of an accepted type whose payload comes out empty or
    undefined is sent as a request of one text part, the locale clause alone,
    with neither the analysis directive nor the file; the creation made of
    the answer has the name of the file, no original image, and starts
    without split view. *)
Theorem file_with_empty_payload_is_sent_as_text_only
    w f now uuid payload text :
  Str.starts_with "image/" (file_type f)
  || String.eqb (file_type f) "application/pdf" = true ->
  App.fileToBase64 f = Return payload ->
  Gemini.truthy_opt payload = false ->
  generateContent P [Gemini.TextPart (Gemini.context_clause (lang w))]
    = Gemini.Responded (Some text) ->
  Str.is_empty text = false ->
  Str.is_empty (Gemini.stripFences text) = false ->
  let mimeType := Some (Str.toLowerCase (file_type f)) in
  let c := App.newCreation uuid (file_name f) (Gemini.stripFences text)
             payload mimeType now in
  Gemini.requestParts EmptyString payload mimeType (lang w)
    = [Gemini.TextPart (Gemini.context_clause (lang w))]
  /\ Eff.exec (InputArea.handleFile
                 (fun p file => App.handleGenerate P p file now uuid) f) w
     = generationSucceeded c w
  /\ JS.field c "originalImage" = VUndefined
  /\ LivePreview.defaultSplitView (Some c) = false.
Proof.
  intros Htype Henc Hpay Hgen Htext Hdoc mimeType c.
  assert (Hreq : Gemini.requestParts EmptyString payload mimeType (lang w)
                 = [Gemini.TextPart (Gemini.context_clause (lang w))]).
  { unfold Gemini.requestParts, Gemini.finalPrompt. rewrite Hpay. simpl.
    destruct payload; reflexivity. }
  assert (Himg : JS.field c "originalImage" = VUndefined).
  { unfold c, App.newCreation.
    rewrite !(field_insert_ne _ _ "originalImage") by discriminate.
    rewrite field_insert_eq. unfold mimeType. rewrite Hpay.
    destruct payload; reflexivity. }
  split; [exact Hreq|]. split; [|split; [exact Himg|]].
  - unfold InputArea.handleFile, Eff.exec, mbind, M_bind, Eff.getLang.
    rewrite Htype.
    pose proof (handleGenerate_exec P w EmptyString (Some f) now uuid) as He.
    unfold Eff.exec in He. rewrite He. clear He.
    unfold App.encodeFile. rewrite Henc. simpl. fold mimeType.
    unfold Gemini.bringToLife. rewrite Hreq, Hgen, Htext, Hdoc. reflexivity.
  - unfold LivePreview.defaultSplitView. rewrite Himg. reflexivity.
Qed.

(** X9: when fence removal leaves nothing of an answer that was not empty,
    as for an answer that is one fence, the attempt ends idle with no
    creation, no notice and nothing written. *)
Theorem answer_reduced_to_nothing_is_dropped_silently
    w promptText file now uuid imageBase64 mimeType text :
  App.encodeFile file = Return (imageBase64, mimeType) ->
  generateContent P
    (Gemini.requestParts promptText imageBase64 mimeType (lang w))
    = Gemini.Responded (Some text) ->
  Str.is_empty text = false ->
  Str.is_empty (Gemini.stripFences text) = true ->
  historyChanged w = false ->
  App.dispatch P (App.handleGenerate P promptText file now uuid) w
  = generationDropped w.
Proof.
  intros Henc Hgen Htext Hdoc Hch.
  rewrite (dispatch_returns P _ _ _ (handleGenerate_returns P _ _ _ _ _)).
  rewrite handleGenerate_exec, Henc.
  unfold Gemini.bringToLife. rewrite Hgen, Htext, Hdoc.
  unfold Eff.exec. rewrite render_idle; [reflexivity | exact Hch].
Qed.

End GenerationEdges.

(** ** The input area (InputArea.tsx, lines 63-103) *)

Lemma drop_spaces_all (s : string) :
  all_spaces s = true -> Str.drop_spaces s = EmptyString.
Proof.
  induction s as [|c s IH]; [reflexivity|]. simpl.
  destruct (Str.js_space c); [exact IH | discriminate].
Qed.

Lemma trim_all_spaces (s : string) :
  all_spaces s = true -> Str.trim s = EmptyString.
Proof. intros H. unfold Str.trim. rewrite (drop_spaces_all _ H). reflexivity. Qed.

Lemma no_leading_space_prefix (a b : string) :
  a <> EmptyString -> no_leading_space (a +:+ b) = true ->
  no_leading_space a = true.
Proof. destruct a; [congruence|]. intros _ H. exact H. Qed.

(** Trimming a trimmed text changes nothing. *)
Lemma trim_idempotent (s : string) : Str.trim (Str.trim s) = Str.trim s.
Proof.
  unfold Str.trim at 2 3.
  set (t := Str.drop_spaces s).
  pose proof (drop_spaces_no_leading s) as Ht. fold t in Ht.
  destruct (drop_spaces_split (String.rev t)) as [q [Hq _]].
  set (u := Str.drop_spaces (String.rev t)) in *.
  pose proof (drop_spaces_no_leading (String.rev t)) as Hu. fold u in Hu.
  assert (Hru : no_leading_space (String.rev u) = true).
  { destruct u as [|c u'] eqn:Eu; [reflexivity|].
    apply (no_leading_space_prefix _ (String.rev q)).
    - rewrite string_rev_cons. destruct (String.rev u'); discriminate.
    - rewrite <- string_rev_append, <- Hq, string_rev_involutive. exact Ht. }
  unfold Str.trim.
  rewrite (drop_spaces_id _ Hru), string_rev_involutive, (drop_spaces_id _ Hu).
  reflexivity.
Qed.

Section InputAreaFacts.
Variable P : Platform.
Variable onGenerate : string -> option File -> M unit.

(** X10: a text of white space only is never submitted: the world stays as
    it is and the text stays in the field. *)
Theorem blank_text_is_not_submitted s w :
  all_spaces (InputArea.prompt s) = true ->
  InputArea.handleTextSubmit onGenerate s w = (Return s, w).
Proof.
  intros H. unfold InputArea.handleTextSubmit.
  rewrite (trim_all_spaces _ H). reflexivity.
Qed.

(** X11: while a generation runs or a creation is displayed, nothing is
    submitted and nothing is taken from a drop, whatever the text and the
    files are: the world stays as it is, the text stays in the field, and
    dragging over the area does not highlight it. *)
Theorem busy_input_area_ignores_submit_and_drop
    s w files handleFileCaptured :
  App.isFocused w = true ->
  InputArea.handleTextSubmit onGenerate s w = (Return s, w)
  /\ InputArea.handleDrop handleFileCaptured files s w
     = (Return {| InputArea.prompt := InputArea.prompt s;
                  InputArea.isDragging := false |}, w)
  /\ InputArea.handleDragOver s w = (Return s, w).
Proof.
  intros H. unfold InputArea.handleTextSubmit, InputArea.handleDrop,
    InputArea.handleDragOver.
  rewrite H, !orb_true_r. simpl. repeat split; reflexivity.
Qed.

(** X12: a file whose type is neither [image/...] nor [application/pdf],
    in these letters, is refused with the notice of the locale, whatever
    [onGenerate] is: nothing else changes. *)
Theorem unsupported_file_type_is_refused f w :
  Str.starts_with "image/" (file_type f) = false ->
  file_type f <> "application/pdf" ->
  InputArea.handleFile onGenerate f w
  = (Return (), notified (InputArea.UPLOAD_NOTICE (lang w)) w).
Proof.
  intros Hi Hp. unfold InputArea.handleFile, mbind, M_bind, Eff.getLang.
  rewrite Hi. destruct (String.eqb_spec (file_type f) "application/pdf");
    [congruence|]. reflexivity.
Qed.

(** X13: a text that is not blank, submitted while idle, starts one
    generation attempt on the trimmed text without file, and empties the
    field; the instruction text of that attempt is the trimmed text, then the
    same text as the labelled user request, then the locale clause. *)
Theorem text_submit_generates_from_trimmed_text s w now uuid :
  Str.is_empty (Str.trim (InputArea.prompt s)) = false ->
  App.isFocused w = false ->
  let text := Str.trim (InputArea.prompt s) in
  InputArea.handleTextSubmit
    (fun p file => App.handleGenerate P p file now uuid) s w
  = (Return {| InputArea.prompt := EmptyString;
               InputArea.isDragging := InputArea.isDragging s |},
     Eff.exec (App.handleGenerate P text None now uuid) w)
  /\ Gemini.requestParts text None None (lang w)
     = [Gemini.TextPart
          (text +:+ Gemini.user_request text
           +:+ Gemini.context_clause (lang w))].
Proof.
  intros Hne Hidle text. split.
  - unfold InputArea.handleTextSubmit. rewrite Hne.
    assert (Hg : isGenerating w = false).
    { unfold App.isFocused in Hidle. apply orb_false_iff in Hidle as [_ H].
      exact H. }
    rewrite Hg, Hidle. simpl. unfold mbind, M_bind.
    rewrite handleGenerate_returns. reflexivity.
  - unfold Gemini.requestParts, Gemini.finalPrompt. simpl.
    unfold text at 2. rewrite trim_idempotent. fold text.
    assert (Ht : Str.is_empty text = false) by exact Hne.
    rewrite Ht. simpl.
    destruct (proj1 (is_empty_length text) Ht); simpl;
      rewrite append_assoc; reflexivity.
Qed.

End InputAreaFacts.

(** ** The archive (App.tsx, lines 88-147) *)

Section ArchiveFacts.
Variable P : Platform.

Lemma render_run w :
  Eff.exec (App.render P) w = if historyChanged w then rendered P w else w.
Proof.
  unfold Eff.exec, App.render. destruct (historyChanged w); [|reflexivity].
  unfold mbind, M_bind. rewrite persistEffect_run. simpl.
  unfold rendered. destruct (_ && _); reflexivity.
Qed.

Lemma mapR_throws {A B} (f : A -> result B) l x e :
  In x l -> f x = Throw e -> exists e', App.mapR f l = Throw e'.
Proof.
  induction l as [|y l IH]; intros Hin Hx; [destruct Hin|]. simpl.
  destruct Hin as [->|Hin].
  - rewrite Hx. eauto.
  - destruct (f y); [|eauto].
    destruct (IH Hin Hx) as [e' ->]. eauto.
Qed.

Lemma loadedHistory_unreadable text :
  unreadable P text -> App.loadedHistory P (Some text) = [].
Proof.
  unfold unreadable, App.loadedHistory. intros H.
  destruct (Str.is_empty text); [reflexivity|].
  destruct (JSON_parse P text) as [parsed|e]; simpl; [|reflexivity].
  destruct parsed as [| |b|n|s|t|items|m]; simpl; try reflexivity.
  destruct (mapR_throws (App.reviveItem P) items VNull TypeError H eq_refl)
    as [e' ->].
  reflexivity.
Qed.

Lemma mount_by_loadedHistory now uuid storage storage' :
  App.loadedHistory P (storage !! App.HISTORY_KEY) = [] ->
  App.loadedHistory P (storage' !! App.HISTORY_KEY) = [] ->
  history (App.mount P now uuid storage) = history (App.mount P now uuid storage')
  /\ fetched (App.mount P now uuid storage) = App.exampleUrls
  /\ alerts (App.mount P now uuid storage) = [].
Proof.
  intros H H'. rewrite !mount_run, !render_history, !initHistory_run. simpl.
  rewrite H, H'. simpl.
  split; [destruct (seedResults P now uuid); reflexivity|].
  rewrite !render_run.
  destruct (seedResults P now uuid); simpl; split; reflexivity.
Qed.

(** X14: a saved text that does not parse, or parses to something that is
    not an array, or to an array in which a null stands, is ignored as a
    whole and without notice: the collection is what it is on a first run,
    and the examples are requested. *)
Theorem unreadable_archive_is_treated_as_absent now uuid storage text :
  storage !! App.HISTORY_KEY = Some text ->
  unreadable P text ->
  history (App.mount P now uuid storage)
    = history (App.mount P now uuid (delete App.HISTORY_KEY storage))
  /\ fetched (App.mount P now uuid storage) = App.exampleUrls
  /\ alerts (App.mount P now uuid storage) = [].
Proof.
  intros Hs Hu. apply mount_by_loadedHistory.
  - rewrite Hs. apply loadedHistory_unreadable, Hu.
  - rewrite lookup_delete_eq. reflexivity.
Qed.

Lemma reviveItem_durable c :
  durable P c ->
  exists c', App.reviveItem P (VObj (omap (Json.to_json P) c)) = Return c'
             /\ sameFields c c'.
Proof.
  intros [[t [Ht Hd]] Hrest].
  assert (Hts : JS.field (omap (Json.to_json P) c) "timestamp"
                = VStr (toISOString P t)).
  { rewrite field_to_json, Ht. reflexivity. }
  exists (<["timestamp" := VDate (Some t)]> (omap (Json.to_json P) c)).
  split.
  { unfold App.reviveItem. simpl.
    change (default VUndefined (omap (Json.to_json P) c !! "timestamp"))
      with (JS.field (omap (Json.to_json P) c) "timestamp").
    rewrite Hts. unfold Json.Date_new. simpl. rewrite Hd. reflexivity. }
  intros k.
  destruct (decide (k = "timestamp")) as [->|Hk].
  - rewrite field_insert_eq. unfold JS.field. rewrite Ht. reflexivity.
  - rewrite field_insert_ne by congruence. rewrite field_to_json.
    unfold JS.field. destruct (c !! k) as [v|] eqn:Hv; [|reflexivity]. simpl.
    destruct (Hrest k v Hk Hv) as [->| ->]; reflexivity.
Qed.

Lemma reviveAll_durable h :
  Forall (durable P) h ->
  exists h', App.mapR (App.reviveItem P)
               (map (fun c => VObj (omap (Json.to_json P) c)) h) = Return h'
             /\ Forall2 sameFields h h'.
Proof.
  induction 1 as [|c h Hc _ [h' [IH1 IH2]]].
  - exists []. split; [reflexivity | constructor].
  - destruct (reviveItem_durable c Hc) as [c' [Hr Hs]].
    exists (c' :: h'). split.
    + cbn [map App.mapR]. rewrite Hr, IH1. reflexivity.
    + constructor; assumption.
Qed.

(** X15: a collection that is not empty, of creations that the archive can
    hold, is read back at the next start as it was saved, property by
    property and in its order, and no example is requested: provided the
    write was within the quota and [JSON.parse] reads back the text that
    [JSON.stringify] wrote. *)
Theorem saved_history_is_loaded_back w now uuid :
  history w <> [] ->
  Forall (durable P) (history w) ->
  quota_exceeded P (localStorage w) App.HISTORY_KEY
    (JSON_stringify P (App.historyValue (history w)) 0) = false ->
  Str.is_empty (JSON_stringify P (App.historyValue (history w)) 0) = false ->
  JSON_parse P (JSON_stringify P (App.historyValue (history w)) 0)
    = Return (VArr (map (fun c => VObj (omap (Json.to_json P) c))
                      (history w))) ->
  let saved := localStorage (Eff.exec (App.persistEffect P) w) in
  Forall2 sameFields (history w) (history (App.mount P now uuid saved))
  /\ fetched (App.mount P now uuid saved) = [].
Proof.
  intros Hne Hd Hq Htext Hparse saved.
  assert (Hsaved : saved !! App.HISTORY_KEY
                   = Some (JSON_stringify P (App.historyValue (history w)) 0)).
  { unfold saved, Eff.exec. rewrite persistEffect_run. simpl.
    destruct (history w) as [|c h] eqn:Hh; [congruence|]. simpl.
    rewrite Hq. simpl. apply lookup_insert_eq. }
  destruct (reviveAll_durable _ Hd) as [h' [Hr Hs]].
  assert (Hl : App.loadedHistory P (saved !! App.HISTORY_KEY) = h').
  { rewrite Hsaved. unfold App.loadedHistory. rewrite Htext, Hparse. simpl.
    rewrite Hr. reflexivity. }
  assert (Hpos : (0 <? length h')%nat = true).
  { apply Nat.ltb_lt. rewrite <- (Forall2_length _ _ _ Hs).
    destruct (history w); [congruence | simpl; lia]. }
  rewrite mount_run, render_history, render_run, initHistory_run. simpl.
  rewrite Hl, Hpos. simpl. split; [exact Hs | reflexivity].
Qed.

(** What a handler does to the pending save: it leaves the collection, the
    archive and the mark as they are, or it marks the collection as changed. *)
Lemma handler_marks e w :
  let w1 := Eff.exec (handle P e) w in
  localStorage w1 = localStorage w
  /\ ((historyChanged w1 = historyChanged w /\ history w1 = history w)
      \/ historyChanged w1 = true).
Proof.
  intros w1. split; [apply handler_localStorage|]. unfold w1.
  destruct e as [promptText file now uuid|json now uuid| |c]; simpl.
  - rewrite handleGenerate_exec.
    destruct (App.encodeFile file) as [[b m]|e]; [|left; split; reflexivity].
    destruct (Gemini.bringToLife _ _ _ _ _) as [html|e];
      [|left; split; reflexivity].
    destruct (Str.is_empty html); [left; split; reflexivity | right; reflexivity].
  - unfold Eff.exec. rewrite importOnload_run. simpl.
    destruct (JSON_parse P json) as [parsed|e]; [|left; split; reflexivity].
    destruct parsed as [| |b|n|s|t|l|m]; try (left; split; reflexivity).
    destruct (_ && _); [|left; split; reflexivity].
    destruct (JS.to_primitive_throws _); [left; split; reflexivity|].
    unfold importSucceeded, App.prependIfNew. simpl.
    destruct (App.idExists (history w) _); simpl.
    + left. rewrite orb_false_r. split; reflexivity.
    + right. apply orb_true_r.
  - left. split; reflexivity.
  - left. split; reflexivity.
Qed.

Lemma dispatch_run e w :
  App.dispatch P (handle P e) w
  = Eff.exec (App.render P) (Eff.exec (handle P e) w).
Proof. apply dispatch_returns, handler_returns. Qed.

Lemma archived_after_render w :
  (forall st k v, quota_exceeded P st k v = false) ->
  archived P (rendered P w).
Proof.
  intros Hq. unfold archived, rendered. simpl. rewrite Hq. simpl.
  destruct (history w) as [|c h]; [left; reflexivity|].
  right. simpl. apply lookup_insert_eq.
Qed.

Lemma archived_dispatch e w :
  (forall st k v, quota_exceeded P st k v = false) ->
  historyChanged w = false -> archived P w ->
  let w' := App.dispatch P (handle P e) w in
  historyChanged w' = false /\ archived P w'.
Proof.
  intros Hq Hch Ha w'. unfold w'. rewrite dispatch_run, render_run.
  destruct (handler_marks e w) as [Hls [[Hsame Hh]|Hmark]].
  - rewrite Hsame, Hch. split; [congruence|].
    unfold archived in *. rewrite Hh, Hls. exact Ha.
  - rewrite Hmark. split; [reflexivity | apply archived_after_render, Hq].
Qed.

Lemma archived_mount now uuid storage :
  (forall st k v, quota_exceeded P st k v = false) ->
  historyChanged (App.mount P now uuid storage) = false
  /\ archived P (App.mount P now uuid storage).
Proof.
  intros Hq. rewrite mount_run, render_run, initHistory_run. simpl.
  destruct (0 <? _)%nat; simpl.
  - split; [reflexivity | apply archived_after_render, Hq].
  - destruct (seedResults P now uuid); simpl.
    + split; [reflexivity | apply archived_after_render, Hq].
    + split; [reflexivity | left; reflexivity].
Qed.

(** X16: when no write exceeds the quota, after the first render and any
    sequence of events the archive holds the text of the collection, unless
    the collection is empty, and no save is pending. *)
Theorem archive_follows_the_collection now uuid storage es :
  (forall st k v, quota_exceeded P st k v = false) ->
  let w := run P es (App.mount P now uuid storage) in
  archived P w /\ historyChanged w = false.
Proof.
  intros Hq.
  destruct (archived_mount now uuid storage Hq) as [Hch Ha].
  revert Hch Ha. generalize (App.mount P now uuid storage).
  induction es as [|e es IH]; intros w0 Hch Ha; simpl.
  - split; assumption.
  - destruct (archived_dispatch e w0 Hq Hch Ha) as [Hch' Ha'].
    apply IH; assumption.
Qed.

(** X17: when every write exceeds the quota, an event does to the
    collection, the displayed creation, the flags and the notices what its
    handler does, with no notice of the failure, and the archive stays as it
    was. *)
Theorem quota_failure_is_swallowed e w :
  (forall st k v, quota_exceeded P st k v = true) ->
  let w1 := Eff.exec (handle P e) w in
  let w' := App.dispatch P (handle P e) w in
  localStorage w' = localStorage w
  /\ history w' = history w1
  /\ activeCreation w' = activeCreation w1
  /\ isGenerating w' = isGenerating w1
  /\ alerts w' = alerts w1.
Proof.
  intros Hq w1 w'. unfold w', w1. rewrite dispatch_run, render_run.
  destruct (historyChanged _); simpl.
  - rewrite Hq, andb_false_r. rewrite handler_localStorage.
    repeat split; reflexivity.
  - rewrite handler_localStorage. repeat split; reflexivity.
Qed.

End ArchiveFacts.

(** ** What enters the collection (App.tsx, lines 181-205 and 233-256) *)

Section InsertFacts.
Variable P : Platform.

Lemma insertedBy_inv (h : list Creation) c c' :
  insertedBy h (c' :: h) = Some c -> c = c'.
Proof. rewrite insertedBy_cons. congruence. Qed.

Lemma newCreation_html uuid name html imageBase64 mimeType now :
  JS.field (App.newCreation uuid name html imageBase64 mimeType now) "html"
  = VStr html.
Proof.
  unfold App.newCreation.
  rewrite !(field_insert_ne _ _ "html") by discriminate.
  apply field_insert_eq.
Qed.

(** X18: a creation that a generation or an import puts in the collection
    has a truthy document, so the preview of it shows that document and is
    never blank. *)
Theorem inserted_creation_has_a_document e w c :
  insertedBy (history w) (history (App.dispatch P (handle P e) w)) = Some c ->
  JS.truthy (JS.field c "html") = true
  /\ LivePreview.mainContent false (Some c) false
     = Return (LivePreview.Document (JS.field c "html") None).
Proof.
  intros Hins.
  assert (Ht : JS.truthy (JS.field c "html") = true).
  { revert Hins. rewrite event_history.
    destruct (acceptedInsert P e w) as [c'|] eqn:Hacc;
      [|rewrite insertedBy_same; discriminate].
    intros Hc. apply insertedBy_inv in Hc. subst c'.
    destruct e as [promptText file now uuid|json now uuid| |c0];
      simpl in Hacc; try discriminate.
    - destruct (App.encodeFile file) as [[b m]|e]; [|discriminate].
      destruct (Gemini.bringToLife _ _ _ _ _) as [html|e]; [|discriminate].
      destruct (Str.is_empty html) eqn:Hh; [discriminate|].
      injection Hacc as <-.
      rewrite newCreation_html. simpl. rewrite Hh. reflexivity.
    - destruct (acceptedDocument P json) as [m|] eqn:Ha; [|discriminate].
      destruct (idInUse _ _); [discriminate|].
      injection Hacc as <-. unfold importedCreation.
      rewrite !(field_insert_ne _ _ "html") by discriminate.
      apply (acceptedDocument_inv P json m Ha). }
  split; [exact Ht|].
  unfold LivePreview.mainContent. rewrite Ht. reflexivity.
Qed.


Lemma seedResults_answered now uuid urls :
  Forall (answered P) urls ->
  exists rs,
    App.mapR (fun ur => App.exampleOf P now (uuid ur.1) ur.2)
      (map (fun url => (url, fetch P url)) urls) = Return rs
    /\ omap id rs = omap (seededFrom P now uuid) urls.
Proof.
  induction 1 as [|url urls Hu _ [rs [IH1 IH2]]].
  - exists []. split; reflexivity.
  - unfold answered in Hu. cbn [map App.mapR fst snd].
    assert (Hex : exists r,
               App.exampleOf P now (uuid url) (fetch P url) = Return r
               /\ r = seededFrom P now uuid url).
    { unfold seededFrom.
      destruct (fetch P url) as [|[] [data|e]]; try (destruct Hu; fail);
        try (eexists; split; reflexivity).
      destruct data as [| |b|n|s|t|l|m]; try (destruct Hu; fail);
        try (eexists; split; reflexivity).
      simpl. rewrite (withTimestampAndId_object P), Hu.
      eexists; split; reflexivity. }
    destruct Hex as [r [Hr ->]]. rewrite Hr, IH1.
    eexists. split; [reflexivity|].
    cbn [omap list_omap]. simpl id at 1.
    destruct (seededFrom P now uuid url); simpl; rewrite IH2; reflexivity.
Qed.

(** X20: on a first run, when every example request is answered and every
    body that goes with an ok response is read, is not null and has no
    timestamp on which [new Date] throws, the collection is made of the
    examples whose response is ok, in the order of the URLs; the ones whose
    response is not ok are left out. *)
Theorem examples_that_are_not_ok_are_left_out now uuid storage :
  App.loadedHistory P (storage !! App.HISTORY_KEY) = [] ->
  Forall (answered P) App.exampleUrls ->
  history (App.mount P now uuid storage)
    = omap (seededFrom P now uuid) App.exampleUrls
  /\ fetched (App.mount P now uuid storage) = App.exampleUrls.
Proof.
  intros Hl Ha.
  destruct (seedResults_answered now uuid _ Ha) as [rs [Hrs Hom]].
  rewrite mount_run, render_history, render_run, initHistory_run. simpl.
  rewrite Hl. simpl. unfold seedResults. rewrite Hrs. simpl.
  split; [exact Hom | reflexivity].
Qed.

End InsertFacts.

(** ** The preview (LivePreview.tsx, lines 129-163) *)

Lemma nextLoadingStep_spec k :
  LivePreview.nextLoadingStep k = if (k <? 9)%nat then S k else k.
Proof.
  unfold LivePreview.nextLoadingStep.
  change (length LivePreview.LOADING_STEPS - 1)%nat with 9%nat.
  destruct (k <? 9)%nat; [lia | reflexivity].
Qed.

(** X21: after [n] ticks of the interval the loading step is [n], up to the
    last step, where it stays: it always is the index of a step. *)
Theorem loading_step_stops_at_the_last_step n :
  Nat.iter n LivePreview.nextLoadingStep 0%nat = Nat.min n 9
  /\ is_Some (LivePreview.LOADING_STEPS
                !! Nat.iter n LivePreview.nextLoadingStep 0%nat).
Proof.
  assert (H : Nat.iter n LivePreview.nextLoadingStep 0%nat = Nat.min n 9).
  { induction n as [|n IH]; [reflexivity|].
    simpl Nat.iter. rewrite IH, nextLoadingStep_spec.
    destruct (Nat.ltb_spec (Nat.min n 9) 9); lia. }
  split; [exact H|]. rewrite H. apply lookup_lt_is_Some.
  change (length LivePreview.LOADING_STEPS) with 10%nat. lia.
Qed.

(** X22: after [n] ticks of the timer the index of the cycling phrase is
    [n] modulo seven, in either locale: it always is the index of a phrase. *)
Theorem cycling_index_stays_in_range l n :
  Nat.iter n (InputArea.nextIndex l) 0%nat = (n mod 7)%nat
  /\ is_Some (InputArea.words l !! Nat.iter n (InputArea.nextIndex l) 0%nat).
Proof.
  assert (Hlen : length (InputArea.words l) = 7%nat) by (destruct l; reflexivity).
  assert (H : Nat.iter n (InputArea.nextIndex l) 0%nat = (n mod 7)%nat).
  { induction n as [|n IH]; [reflexivity|].
    simpl Nat.iter. rewrite IH. unfold InputArea.nextIndex. rewrite Hlen.
    rewrite Nat.Div0.add_mod_idemp_l. f_equal. lia. }
  split; [exact H|]. rewrite H. apply lookup_lt_is_Some. rewrite Hlen.
  apply Nat.mod_upper_bound. lia.
Qed.

Lemma sanitized_char_is_safe c :
  file_safe (Str.lower_char (if Str.is_alnum c then c else "_"%char)) = true.
Proof. destruct c as [[] [] [] [] [] [] [] []]; vm_compute; reflexivity. Qed.

Lemma sanitized_name_is_safe (name : string) :
  all_chars file_safe (Str.toLowerCase (Str.sanitize name)) = true
  /\ String.length (Str.toLowerCase (Str.sanitize name)) = String.length name.
Proof.
  induction name as [|c name [IH1 IH2]]; [split; reflexivity|].
  simpl. rewrite sanitized_char_is_safe, IH1, IH2. split; reflexivity.
Qed.

(** X23: the name of an exported file is made of lower case letters, digits
    and underscores, one for each code unit of the name of the creation,
    followed by [_artifact.json]; its content is the text of the creation
    with an indentation of two.  Without a creation nothing is exported, and
    a name that is not a string makes the export throw. *)
Theorem exported_file_name_is_safe P (c : Creation) :
  match JS.field c "name" with
  | VStr name =>
      exists stem,
        LivePreview.handleExport P (Some c)
        = Return (Some {| LivePreview.filename := stem +:+ "_artifact.json";
                          LivePreview.content :=
                            JSON_stringify P (VObj c) 2 |})
        /\ all_chars file_safe stem = true
        /\ String.length stem = String.length name
  | _ => LivePreview.handleExport P (Some c) = Throw TypeError
  end
  /\ LivePreview.handleExport P None = Return None.
Proof.
  split; [|reflexivity]. unfold LivePreview.handleExport.
  destruct (JS.field c "name"); try reflexivity.
  eexists. split; [reflexivity|]. apply sanitized_name_is_safe.
Qed.

(** ** The theme (App.tsx, lines 22-46) *)

(** X24: the mode that the theme effect wrote is the mode of the next start,
    whatever the system prefers; with nothing saved the mode is dark unless
    the system prefers light; and writing the theme changes nothing of what
    the next start loads as its collection. *)
Theorem theme_is_read_back P isDarkMode storage prefersLight now uuid :
  Theme.initTheme (Theme.applyTheme isDarkMode storage) prefersLight
    = isDarkMode
  /\ (storage !! Theme.THEME_KEY = None ->
      Theme.initTheme storage prefersLight = negb prefersLight)
  /\ history (App.mount P now uuid (Theme.applyTheme isDarkMode storage))
     = history (App.mount P now uuid storage).
Proof.
  split; [|split].
  - unfold Theme.initTheme, Theme.applyTheme. rewrite lookup_insert_eq.
    destruct isDarkMode; reflexivity.
  - intros H. unfold Theme.initTheme. rewrite H.
    destruct prefersLight; reflexivity.
  - rewrite !mount_run, !render_history, !initHistory_run. simpl.
    unfold Theme.applyTheme. rewrite lookup_insert_ne by discriminate.
    destruct (0 <? length _)%nat; [reflexivity|].
    destruct (seedResults P now uuid); reflexivity.
Qed.

(** ** The source panel of a creation made from a file
    (App.tsx, lines 195-202; LivePreview.tsx, lines 143-149 and 274-304) *)

Lemma newCreation_originalImage uuid name html b m now :
  Str.is_empty b = false -> Str.is_empty m = false ->
  JS.field (App.newCreation uuid name html (Some b) (Some m) now)
    "originalImage"
  = VStr ("data:" +:+ m +:+ ";base64," +:+ b).
Proof.
  intros Hb Hm. unfold App.newCreation.
  rewrite !(field_insert_ne _ _ "originalImage") by discriminate.
  rewrite field_insert_eq. simpl. rewrite Hb, Hm. reflexivity.
Qed.

(** X25: a creation made from a file that the input area accepts, with a
    payload that is not empty, starts in split view, and its source panel is
    the PDF viewer when the type of the file is [application/pdf] and the
    image otherwise, on the data URL made of the type in lower case and the
    payload. *)
Theorem source_panel_follows_the_file_type
    uuid name html payload f now :
  Str.starts_with "image/" (file_type f)
  || String.eqb (file_type f) "application/pdf" = true ->
  Str.is_empty payload = false ->
  Str.is_empty html = false ->
  let c := App.newCreation uuid name html (Some payload)
             (Some (Str.toLowerCase (file_type f))) now in
  let url := VStr ("data:" +:+ Str.toLowerCase (file_type f) +:+ ";base64,"
                   +:+ payload) in
  LivePreview.defaultSplitView (Some c) = true
  /\ LivePreview.mainContent false (Some c) true
     = Return (LivePreview.Document (VStr html)
                 (Some (if String.eqb (file_type f) "application/pdf"
                        then LivePreview.PdfPanel url
                        else LivePreview.ImagePanel url))).
Proof.
  intros Ht Hp Hh c url.
  assert (Hm : Str.is_empty (Str.toLowerCase (file_type f)) = false).
  { destruct (file_type f); [discriminate | reflexivity]. }
  assert (Hoi : JS.field c "originalImage" = url)
    by (apply newCreation_originalImage; assumption).
  assert (Hhtml : JS.field c "html" = VStr html) by apply newCreation_html.
  assert (Hpanel :
            Str.starts_with "data:application/pdf"
              ("data:" +:+ Str.toLowerCase (file_type f) +:+ ";base64,"
               +:+ payload)
            = String.eqb (file_type f) "application/pdf").
  { destruct (String.eqb_spec (file_type f) "application/pdf") as [E|E].
    - rewrite E. reflexivity.
    - rewrite orb_false_r in Ht. unfold Str.starts_with in Ht.
      destruct (Str.strip_prefix "image/" (file_type f)) as [r|] eqn:Hr;
        [|discriminate].
      rewrite (strip_prefix_Some _ _ _ Hr). reflexivity. }
  split.
  - unfold LivePreview.defaultSplitView. rewrite Hoi. simpl.
    destruct (_ +:+ _) eqn:E; [discriminate E | reflexivity].
  - unfold LivePreview.mainContent. rewrite Hhtml, Hoi. simpl.
    rewrite Hh. simpl.
    change (Str.is_empty
              ("data:" +:+ Str.toLowerCase (file_type f) +:+ ";base64,"
               +:+ payload)) with false.
    simpl. unfold LivePreview.sourcePanel, url. rewrite Hpanel.
    destruct (String.eqb _ _); reflexivity.
Qed.

(** A creation as [handleGenerate] makes it can be held by the archive, when
    its time is one whose ISO text [Date.parse] reads back. *)
Lemma newCreation_durable P uuid name html imageBase64 mimeType now :
  Date_parse P (toISOString P now) = Some now ->
  durable P (App.newCreation uuid name html imageBase64 mimeType now).
Proof.
  intros Hd. split.
  - exists now. split; [|exact Hd]. unfold App.newCreation.
    rewrite !(lookup_insert_ne _ _ "timestamp") by discriminate.
    apply lookup_insert_eq.
  - intros k v Hk. unfold App.newCreation.
    rewrite !lookup_insert_Some, lookup_empty.
    intros [[_ <-]|[_ [[_ <-]|[_ [[_ <-]|[_ [[_ <-]|[_ [[E _]|[_ H]]]]]]]]]];
      try (right; reflexivity); try congruence.
    destruct imageBase64 as [b|], mimeType as [m|];
      try (left; reflexivity).
    destruct (_ && _); [right | left]; reflexivity.
Qed.

(** ** The further properties on concrete inputs *)

Section ConcreteFurther.
Import Scenario.

(** X2 on a document behind [```html] and a space. *)
Lemma stripFences_unwraps_fenced_document_witness :
  Gemini.stripFences ("```html" +:+ " " +:+ "<p>hi</p>" +:+ "```")
  = "<p>hi</p>".
Proof.
  exact (proj1 (stripFences_unwraps_fenced_document " " "<"%char "p>hi</p>"
                  eq_refl eq_refl ltac:(discriminate))).
Defined.

(** X3 on a document without fences. *)
Lemma stripFences_keeps_unfenced_answer_witness :
  Gemini.stripFences "<p>hi</p>" = "<p>hi</p>".
Proof.
  exact (stripFences_keeps_unfenced_answer "<p>hi</p>" eq_refl eq_refl).
Defined.

(** X5 on a prompt of ten words. *)
Lemma prompt_name_is_short_and_not_empty_witness :
  (0 < String.length
         (App.creationName Gemini.en
            "make me a very large chess clock with two buttons" None)
   <= 30)%nat.
Proof.
  exact (prompt_name_is_short_and_not_empty Gemini.en
           "make me a very large chess clock with two buttons" eq_refl).
Defined.

(** X6 on a prompt of three words. *)
Lemma short_prompt_is_its_own_name_witness :
  App.creationName Gemini.en "a chess clock" None = "a chess clock".
Proof.
  apply short_prompt_is_its_own_name.
  - reflexivity.
  - vm_compute. lia.
  - vm_compute. lia.
Defined.

(** X7 on the data URL of a picture. *)
Lemma fileToBase64_delivers_the_payload_witness :
  App.fileToBase64 sketch = Return (Some "iVBORw0KGgo=").
Proof.
  exact (proj1 (fileToBase64_delivers_the_payload sketch
                  "data:image/png;base64" "iVBORw0KGgo="
                  eq_refl eq_refl eq_refl)).
Defined.

(** X8 on a picture whose data URL ends at the comma. *)
Lemma file_with_empty_payload_is_sent_as_text_only_witness :
  Eff.exec (InputArea.handleFile
              (fun p file =>
                 App.handleGenerate (reference answeringModel served)
                   p file NOW UUID) emptyPicture) (App.initial ∅)
  = generationSucceeded
      (App.newCreation UUID "empty.png" "<!DOCTYPE html><p>clock</p>"
         (Some EmptyString) (Some "image/png") NOW)
      (App.initial ∅).
Proof.
  exact (proj1 (proj2
           (file_with_empty_payload_is_sent_as_text_only
              (reference answeringModel served) (App.initial ∅)
              emptyPicture NOW UUID (Some EmptyString)
              "<!DOCTYPE html><p>clock</p>"
              eq_refl eq_refl eq_refl eq_refl eq_refl eq_refl))).
Defined.

(** X9 on a model that answers one fence. *)
Lemma answer_reduced_to_nothing_is_dropped_silently_witness :
  App.dispatch (reference fenceModel served)
    (App.handleGenerate (reference fenceModel served)
       "a chess clock" None NOW UUID) (App.initial ∅)
  = generationDropped (App.initial ∅).
Proof.
  exact (answer_reduced_to_nothing_is_dropped_silently
           (reference fenceModel served) (App.initial ∅)
           "a chess clock" None NOW UUID None None "```"
           eq_refl eq_refl eq_refl eq_refl eq_refl).
Defined.

(** X10 on a field of three blanks. *)
Lemma blank_text_is_not_submitted_witness :
  InputArea.handleTextSubmit
    (fun p file =>
       App.handleGenerate (reference answeringModel served) p file NOW UUID)
    blankField (App.initial ∅)
  = (Return blankField, App.initial ∅).
Proof.
  exact (blank_text_is_not_submitted
           (fun p file =>
              App.handleGenerate (reference answeringModel served)
                p file NOW UUID)
           blankField (App.initial ∅) eq_refl).
Defined.

(** X11 while a creation is displayed: a drop of a picture is ignored. *)
Lemma busy_input_area_ignores_submit_and_drop_witness :
  InputArea.handleDrop
    (InputArea.handleFile
       (fun p file =>
          App.handleGenerate (reference answeringModel served)
            p file NOW UUID))
    [sketch] typedField (generationSucceeded clock (App.initial ∅))
  = (Return typedField, generationSucceeded clock (App.initial ∅)).
Proof.
  exact (proj1 (proj2
           (busy_input_area_ignores_submit_and_drop
              (fun p file =>
                 App.handleGenerate (reference answeringModel served)
                   p file NOW UUID)
              typedField (generationSucceeded clock (App.initial ∅))
              [sketch]
              (InputArea.handleFile
                 (fun p file =>
                    App.handleGenerate (reference answeringModel served)
                      p file NOW UUID))
              eq_refl))).
Defined.

(** X12 on a text file. *)
Lemma unsupported_file_type_is_refused_witness :
  InputArea.handleFile
    (fun p file =>
       App.handleGenerate (reference answeringModel served) p file NOW UUID)
    notes (App.initial ∅)
  = (Return (),
     notified "Please upload an image or PDF." (App.initial ∅)).
Proof.
  exact (unsupported_file_type_is_refused
           (fun p file =>
              App.handleGenerate (reference answeringModel served)
                p file NOW UUID)
           notes (App.initial ∅) eq_refl ltac:(discriminate)).
Defined.

(** X13 on a text between blanks. *)
Lemma text_submit_generates_from_trimmed_text_witness :
  InputArea.handleTextSubmit
    (fun p file =>
       App.handleGenerate (reference answeringModel served) p file NOW UUID)
    typedField (App.initial ∅)
  = (Return {| InputArea.prompt := EmptyString;
               InputArea.isDragging := false |},
     Eff.exec (App.handleGenerate (reference answeringModel served)
                 "a chess clock" None NOW UUID) (App.initial ∅)).
Proof.
  exact (proj1 (text_submit_generates_from_trimmed_text
                  (reference answeringModel served)
                  typedField (App.initial ∅) NOW UUID eq_refl eq_refl)).
Defined.

(** X14 on an archive whose text is [[null]]. *)
Lemma unreadable_archive_is_treated_as_absent_witness :
  fetched (App.mount (reference silentModel served) NOW seedUuid nullArchive)
  = App.exampleUrls.
Proof.
  assert (H : unreadable (reference silentModel served) "[null]")
    by (vm_compute; left; reflexivity).
  exact (proj1 (proj2
           (unreadable_archive_is_treated_as_absent
              (reference silentModel served) NOW seedUuid nullArchive
              "[null]" eq_refl H))).
Defined.

(** X15 on the collection after one generation: the next start, at another
    time, has the creation, and requests no example. *)
Lemma saved_history_is_loaded_back_witness :
  Forall2 sameFields [clock]
    (history
       (App.mount (reference answeringModel served) 5 seedUuid
          (localStorage
             (Eff.exec (App.persistEffect (reference answeringModel served))
                (generationSucceeded clock (App.initial ∅)))))).
Proof.
  assert (Hd : Forall (durable (reference answeringModel served))
                 (history (generationSucceeded clock (App.initial ∅)))).
  { constructor; [|constructor].
    apply newCreation_durable. vm_compute. reflexivity. }
  assert (Hne : Str.is_empty
                  (JSON_stringify (reference answeringModel served)
                     (App.historyValue
                        (history (generationSucceeded clock (App.initial ∅))))
                     0) = false)
    by (vm_compute; reflexivity).
  assert (Hp : JSON_parse (reference answeringModel served)
                 (JSON_stringify (reference answeringModel served)
                    (App.historyValue
                       (history (generationSucceeded clock (App.initial ∅))))
                    0)
               = Return (VArr (map (fun c =>
                                      VObj (omap (Json.to_json
                                                    (reference answeringModel
                                                       served)) c))
                                 (history
                                    (generationSucceeded clock
                                       (App.initial ∅))))))
    by (vm_compute; reflexivity).
  exact (proj1 (saved_history_is_loaded_back
                  (reference answeringModel served)
                  (generationSucceeded clock (App.initial ∅)) 5 seedUuid
                  ltac:(discriminate) Hd eq_refl Hne Hp)).
Defined.

(** X16 on a first run followed by a generation, an import and a reset. *)
Lemma archive_follows_the_collection_witness :
  archived (reference answeringModel served)
    (run (reference answeringModel served)
       [Submit "a chess clock" None NOW UUID;
        Import plainText NOW UUID2;
        Reset]
       (App.mount (reference answeringModel served) NOW seedUuid ∅)).
Proof.
  exact (proj1 (archive_follows_the_collection
                  (reference answeringModel served) NOW seedUuid ∅
                  [Submit "a chess clock" None NOW UUID;
                   Import plainText NOW UUID2;
                   Reset]
                  (fun _ _ _ => eq_refl))).
Defined.

(** X17 on a generation with a store that refuses every write. *)
Lemma quota_failure_is_swallowed_witness :
  localStorage
    (App.dispatch (fullStore (reference answeringModel served))
       (handle (fullStore (reference answeringModel served))
          (Submit "a chess clock" None NOW UUID))
       (App.initial savedArchive))
  = savedArchive.
Proof.
  exact (proj1 (quota_failure_is_swallowed
                  (fullStore (reference answeringModel served))
                  (Submit "a chess clock" None NOW UUID)
                  (App.initial savedArchive)
                  (fun _ _ _ => eq_refl))).
Defined.

(** X18 on a generation. *)
Lemma inserted_creation_has_a_document_witness :
  LivePreview.mainContent false (Some clock) false
  = Return (LivePreview.Document (JS.field clock "html") None).
Proof.
  assert (H : insertedBy (history (App.initial ∅))
                (history
                   (App.dispatch (reference answeringModel served)
                      (handle (reference answeringModel served)
                         (Submit "a chess clock" None NOW UUID))
                      (App.initial ∅)))
              = Some clock)
    by (vm_compute; reflexivity).
  exact (proj2 (inserted_creation_has_a_document
                  (reference answeringModel served)
                  (Submit "a chess clock" None NOW UUID)
                  (App.initial ∅) clock H)).
Defined.


(** X20 on a first run where the first response is not ok. *)
Lemma examples_that_are_not_ok_are_left_out_witness :
  history (App.mount (reference silentModel firstNotOk) NOW seedUuid ∅)
  = omap (seededFrom (reference silentModel firstNotOk) NOW seedUuid)
      App.exampleUrls.
Proof.
  assert (Ha : Forall (answered (reference silentModel firstNotOk))
                 App.exampleUrls).
  { unfold App.exampleUrls.
    repeat (constructor; [vm_compute; first [exact I | reflexivity]|]).
    constructor. }
  exact (proj1 (examples_that_are_not_ok_are_left_out
                  (reference silentModel firstNotOk) NOW seedUuid ∅
                  eq_refl Ha)).
Defined.

(** X25 on a picture. *)
Lemma source_panel_follows_the_file_type_witness :
  LivePreview.mainContent false
    (Some (App.newCreation UUID "sketch.png" "<p>sketch</p>"
             (Some "iVBORw0KGgo=") (Some "image/png") NOW)) true
  = Return (LivePreview.Document (VStr "<p>sketch</p>")
              (Some (LivePreview.ImagePanel
                       (VStr "data:image/png;base64,iVBORw0KGgo=")))).
Proof.
  exact (proj2 (source_panel_follows_the_file_type
                  UUID "sketch.png" "<p>sketch</p>" "iVBORw0KGgo=" sketch NOW
                  eq_refl eq_refl eq_refl)).
Defined.

End ConcreteFurther.
